(** * openlist_api: the transport core, the hashed login and the uploads

    A shallow embedding of [client.py], [exceptions.py] and of the two
    places of [auth.py] and [fs.py] that build a request by computation
    ([login_hash], [form_upload], [stream_upload]).

    Conventions.
    - A Python [str] is a Rocq [string] holding the text in UTF-8, so that
      [s.encode()] is the identity on the representation.
    - A Python [dict] with string keys and string values (the headers) is a
      [gmap string string]; [d.update(e)] is the union that prefers [e].
    - Python exceptions are values of [PyExn]; a call that may raise returns
      a [PyResult].  [try]/[except] is a [match] on the raised value.
    - The network is a parameter: a [Transport] maps the request that
      [requests.Session.request] receives to what that call does. *)

From Stdlib Require Import ZArith NArith String Ascii List Bool Lia.
From Stdlib Require Import DecimalString.
From stdpp Require Import base option gmap strings.

Import ListNotations.
Local Open Scope string_scope.
Local Open Scope Z_scope.

(** ** JSON values, as [json.loads] builds them *)

#[local] Set Warnings "-register-all".

Inductive JsonValue : Type :=
| JNull
| JBool (b : bool)
| JNum (n : Z)
| JStr (s : string)
| JArr (items : list JsonValue)
| JObj (fields : list (string * JsonValue)).

(** [d.get(key, default)] on the fields of a JSON object. *)
Fixpoint dict_get (fields : list (string * JsonValue)) (key : string)
    (default : JsonValue) : JsonValue :=
  match fields with
  | [] => default
  | (k, v) :: rest => if String.eqb k key then v else dict_get rest key default
  end.

(** ** requests: responses and exceptions *)

(** The body of a response as [Response.json] sees it: a well-formed JSON
    document; a text the decoder rejects with its [JSONDecodeError]; or a
    text on which the decoder raises another exception of its own, which
    [Response.json] lets through ([ValueError] for an integer of more
    digits than the interpreter converts, [RecursionError] for a nesting
    too deep). *)
Inductive Body : Type :=
| JsonBody (value : JsonValue)
| MalformedBody (text : string) (decode_error : string)
| UndecodedBody (text : string) (class_name : string) (error : string).

Record Response : Type := mkResponse {
  status_code : Z;
  reason : string;
  url : string;
  body : Body
}.

(** The classes of [requests.exceptions]; every one of them derives from
    [RequestException]. *)
Inductive RequestsExn : Type :=
| RequestException
| InvalidJSONError
| JSONDecodeError
| HTTPError
| ConnectionError
| ProxyError
| SSLError
| Timeout
| ConnectTimeout
| ReadTimeout
| URLRequired
| TooManyRedirects
| MissingSchema
| InvalidSchema
| InvalidURL
| InvalidProxyURL
| InvalidHeader
| ChunkedEncodingError
| ContentDecodingError
| StreamConsumedError
| RetryError
| UnrewindableBodyError.

(** [isinstance(e, requests.exceptions.Timeout)] *)
Definition is_Timeout (c : RequestsExn) : bool :=
  match c with
  | Timeout | ConnectTimeout | ReadTimeout => true
  | _ => false
  end.

(** [isinstance(e, requests.exceptions.ConnectionError)] *)
Definition is_ConnectionError (c : RequestsExn) : bool :=
  match c with
  | ConnectionError | ProxyError | SSLError | ConnectTimeout => true
  | _ => false
  end.

(** [isinstance(e, requests.exceptions.HTTPError)] *)
Definition is_HTTPError (c : RequestsExn) : bool :=
  match c with
  | HTTPError => true
  | _ => false
  end.

(** ** exceptions.py *)

(** The exception classes of the package.  [OpenListAPIError] is the base
    class, raised as such for the statuses no subclass stands for. *)
Inductive ErrorKind : Type :=
| OpenListAPIError
| AuthenticationError
| AuthorizationError
| NotFoundError
| ValidationError
| NetworkError
| ServerError.

(** The attributes [OpenListAPIError.__init__] stores. *)
Record Failure : Type := mkFailure {
  kind : ErrorKind;
  message : JsonValue;
  failure_status_code : option Z;
  failure_response : option Response
}.

(** ** Raised exceptions and results *)

Inductive PyExn : Type :=
| ExnOpenList (f : Failure)
| ExnRequests (c : RequestsExn) (msg : string)
| ExnBuiltin (class_name : string) (msg : string).

Inductive PyResult (A : Type) : Type :=
| Return (a : A)
| Raise (e : PyExn).

Arguments Return {A} a.
Arguments Raise {A} e.

Definition py_bind {A B : Type} (r : PyResult A) (k : A -> PyResult B)
    : PyResult B :=
  match r with
  | Return a => k a
  | Raise e => Raise e
  end.

Notation "'let*' x ':=' r 'in' k" := (py_bind r (fun x => k))
  (at level 10, x name, r at level 100, k at level 200).

(** [raise Kind(message)] and [raise Kind(message, status_code, response)] *)
Definition raise1 {A : Type} (k : ErrorKind) (msg : string) : PyResult A :=
  Raise (ExnOpenList (mkFailure k (JStr msg) None None)).

Definition raise3 {A : Type} (k : ErrorKind) (msg : JsonValue) (status : Z)
    (response : Response) : PyResult A :=
  Raise (ExnOpenList (mkFailure k msg (Some status) (Some response))).

(** ** requests.Response *)

Definition str_int (n : Z) : string := NilZero.string_of_int (Z.to_int n).

(** [Response.raise_for_status] *)
Definition raise_for_status (response : Response) : PyResult unit :=
  let s := status_code response in
  if (400 <=? s) && (s <? 500) then
    Raise (ExnRequests HTTPError
      (str_int s ++ " Client Error: " ++ reason response
         ++ " for url: " ++ url response))
  else if (500 <=? s) && (s <? 600) then
    Raise (ExnRequests HTTPError
      (str_int s ++ " Server Error: " ++ reason response
         ++ " for url: " ++ url response))
  else Return tt.

(** [Response.json]: the decoder's [JSONDecodeError] is raised as
    [requests.exceptions.JSONDecodeError], a subclass of [InvalidJSONError]
    and so of [RequestException] (requests 2.27 and later); any other
    exception of the decoder is not converted. *)
Definition json (response : Response) : PyResult JsonValue :=
  match body response with
  | JsonBody v => Return v
  | MalformedBody _ err => Raise (ExnRequests JSONDecodeError err)
  | UndecodedBody _ class_name err => Raise (ExnBuiltin class_name err)
  end.

(** [error_data.get('message', default)]: only a [dict] has [get]. *)
Definition get_message (error_data : JsonValue) (default : JsonValue)
    : PyResult JsonValue :=
  match error_data with
  | JObj fields => Return (dict_get fields "message" default)
  | _ => Raise (ExnBuiltin "AttributeError" "object has no attribute 'get'")
  end.

(** ** client.py *)

(** The attributes of a [BaseClient].  The [requests.Session] it owns is
    the [Transport] the calls below take. *)
Record BaseClient : Type := mkBaseClient {
  base_url : string;
  timeout : Z;
  token : option string
}.

(** [c in chars] *)
Fixpoint contains (c : ascii) (chars : string) : bool :=
  match chars with
  | EmptyString => false
  | String a rest => Ascii.eqb a c || contains c rest
  end.

(** [s.rstrip(chars)]: the trailing characters that are in [chars] go. *)
Fixpoint rstrip (chars : string) (s : string) : string :=
  match s with
  | EmptyString => EmptyString
  | String a rest =>
      match rstrip chars rest with
      | EmptyString =>
          if contains a chars then EmptyString else String a EmptyString
      | kept => String a kept
      end
  end.

(** [BaseClient.__init__] *)
Definition __init__ (base_url : string) (timeout : Z) (token : option string)
    : BaseClient :=
  mkBaseClient (rstrip "/" base_url) timeout token.

(** [BaseClient.set_token] *)
Definition set_token (self : BaseClient) (token : string) : BaseClient :=
  mkBaseClient (base_url self) (timeout self) (Some token).

(** The truth value of an [Optional[str]]: [None] and [''] are false. *)
Definition truthy (s : option string) : bool :=
  match s with
  | None => false
  | Some EmptyString => false
  | Some (String _ _) => true
  end.

(** [BaseClient._get_headers] *)
Definition _get_headers (self : BaseClient) : gmap string string :=
  let headers : gmap string string :=
    <["Content-Type" := "application/json"]> ∅ in
  if truthy (token self)
  then <["Authorization" := default "" (token self)]> headers
  else headers.

(** [headers.update(other)] *)
Definition dict_update (headers other : gmap string string)
    : gmap string string :=
  other ∪ headers.

(** The keyword arguments the wrappers pass on to [requests]: [None] is an
    absent keyword.  A file object is the bytes it yields. *)
Record Kwargs : Type := mkKwargs {
  kw_headers : option (gmap string string);
  kw_params : option (list (string * JsonValue));
  kw_json : option JsonValue;
  kw_data : option string;
  kw_files : option (list (string * string))
}.

Definition no_kwargs : Kwargs := mkKwargs None None None None None.

(** What [self.session.request] is called with. *)
Record SentRequest : Type := mkSentRequest {
  sent_method : string;
  sent_url : string;
  sent_headers : gmap string string;
  sent_timeout : Z;
  sent_params : option (list (string * JsonValue));
  sent_json : option JsonValue;
  sent_data : option string;
  sent_files : option (list (string * string))
}.

(** What [Session.request] does with a request: it answers; it raises one
    of the exceptions of [requests]; or it raises an exception from outside
    [requests] ([UnicodeEncodeError] for a header value outside latin-1,
    [ValueError] for a text given as [data] along with [files]). *)
Inductive TransportOutcome : Type :=
| Responded (response : Response)
| Faulted (c : RequestsExn) (msg : string)
| Crashed (class_name : string) (msg : string).

Definition Transport : Type := SentRequest -> TransportOutcome.

Definition session_request (tr : Transport) (req : SentRequest)
    : PyResult Response :=
  match tr req with
  | Responded response => Return response
  | Faulted c msg => Raise (ExnRequests c msg)
  | Crashed class_name msg => Raise (ExnBuiltin class_name msg)
  end.

(** [BaseClient._handle_response] *)
Definition _handle_response (response : Response) : PyResult JsonValue :=
  match (let* _ := raise_for_status response in json response) with
  | Raise (ExnRequests c e) =>
      if is_HTTPError c then
        let status_code := status_code response in
        let error_message :=
          match (let* error_data := json response in
                 get_message error_data (JStr e)) with
          | Return m => m
          | Raise _ => JStr e
          end in
        if status_code =? 401 then
          raise3 AuthenticationError error_message status_code response
        else if status_code =? 403 then
          raise3 AuthorizationError error_message status_code response
        else if status_code =? 404 then
          raise3 NotFoundError error_message status_code response
        else if status_code =? 400 then
          raise3 ValidationError error_message status_code response
        else if status_code >=? 500 then
          raise3 ServerError error_message status_code response
        else
          raise3 OpenListAPIError error_message status_code response
      else Raise (ExnRequests c e)
  | other => other
  end.

(** The three [except] clauses of [BaseClient._request], in their order. *)
Definition _request_except {A : Type} (r : PyResult A) : PyResult A :=
  match r with
  | Raise (ExnRequests c e) =>
      if is_Timeout c then raise1 NetworkError ("请求超时: " ++ e)
      else if is_ConnectionError c then raise1 NetworkError ("连接失败: " ++ e)
      else raise1 NetworkError ("网络错误: " ++ e)
  | other => other
  end.

(** One call: the request handed to the session and how the call ends. *)
Record Exchange : Type := mkExchange {
  sent : SentRequest;
  outcome : PyResult JsonValue
}.

(** [BaseClient._request] *)
Definition _request (tr : Transport) (self : BaseClient)
    (method endpoint : string) (kwargs : Kwargs) : Exchange :=
  let url := base_url self ++ endpoint in
  let headers := _get_headers self in
  let headers :=
    match kw_headers kwargs with
    | Some other => dict_update headers other
    | None => headers
    end in
  let req := mkSentRequest method url headers (timeout self)
               (kw_params kwargs) (kw_json kwargs) (kw_data kwargs)
               (kw_files kwargs) in
  mkExchange req
    (_request_except
       (let* response := session_request tr req in
        _handle_response response)).

(** [BaseClient.get], [post], [put], [delete] *)
Definition get (tr : Transport) (self : BaseClient) (endpoint : string)
    (kwargs : Kwargs) : Exchange :=
  _request tr self "GET" endpoint kwargs.

Definition post (tr : Transport) (self : BaseClient) (endpoint : string)
    (kwargs : Kwargs) : Exchange :=
  _request tr self "POST" endpoint kwargs.

Definition put (tr : Transport) (self : BaseClient) (endpoint : string)
    (kwargs : Kwargs) : Exchange :=
  _request tr self "PUT" endpoint kwargs.

Definition delete (tr : Transport) (self : BaseClient) (endpoint : string)
    (kwargs : Kwargs) : Exchange :=
  _request tr self "DELETE" endpoint kwargs.

(** The five ways into the core: [_request] with a method of the caller's
    choice, and the four wrappers. *)
Inductive EntryPoint : Type :=
| ViaRequest (method : string)
| ViaGet
| ViaPost
| ViaPut
| ViaDelete.

Definition call (entry : EntryPoint) (tr : Transport) (self : BaseClient)
    (endpoint : string) (kwargs : Kwargs) : Exchange :=
  match entry with
  | ViaRequest method => _request tr self method endpoint kwargs
  | ViaGet => get tr self endpoint kwargs
  | ViaPost => post tr self endpoint kwargs
  | ViaPut => put tr self endpoint kwargs
  | ViaDelete => delete tr self endpoint kwargs
  end.

(** ** hashlib: SHA-256 (FIPS 180-4) on 32-bit words kept in [N] *)

Module SHA256.

Local Open Scope N_scope.

Definition mask32 : N := 0xffffffff.

(** Addition modulo 2^32 *)
Definition add32 (x y : N) : N := N.land (x + y) mask32.

Definition rotr (n x : N) : N :=
  N.lor (N.shiftr x n) (N.land (N.shiftl x (32 - n)) mask32).

Definition not32 (x : N) : N := N.lxor x mask32.

Definition Ch (x y z : N) : N := N.lxor (N.land x y) (N.land (not32 x) z).

Definition Maj (x y z : N) : N :=
  N.lxor (N.lxor (N.land x y) (N.land x z)) (N.land y z).

Definition Sigma0 (x : N) : N :=
  N.lxor (N.lxor (rotr 2 x) (rotr 13 x)) (rotr 22 x).

Definition Sigma1 (x : N) : N :=
  N.lxor (N.lxor (rotr 6 x) (rotr 11 x)) (rotr 25 x).

Definition sigma0 (x : N) : N :=
  N.lxor (N.lxor (rotr 7 x) (rotr 18 x)) (N.shiftr x 3).

Definition sigma1 (x : N) : N :=
  N.lxor (N.lxor (rotr 17 x) (rotr 19 x)) (N.shiftr x 10).

(** The constants are defined as the standard defines them: the first 32
    bits of the fractional parts of the cube roots (for [K]) and of the
    square roots (for the initial state) of the first primes. *)
Definition is_prime (p : N) : bool :=
  (2 <=? p)
  && forallb (fun d => negb (p mod d =? 0))
       (map N.of_nat (seq 2 (N.to_nat p - 2))).

Definition primes_below (bound : nat) : list N :=
  filter is_prime (map N.of_nat (seq 0 bound)).

(** The integer cube root, one bit at a time from the top *)
Fixpoint cube_root_bits (bits : nat) (n root : N) : N :=
  match bits with
  | O => root
  | S lower =>
      let candidate := root + N.shiftl 1 (N.of_nat lower) in
      cube_root_bits lower n
        (if candidate * candidate * candidate <=? n then candidate else root)
  end.

Definition cube_root_fraction (p : N) : N :=
  N.land (cube_root_bits 40 (N.shiftl p 96) 0) mask32.

Definition square_root_fraction (p : N) : N :=
  N.land (N.sqrt (N.shiftl p 64)) mask32.

Definition K : list N :=
  Eval vm_compute in map cube_root_fraction (primes_below 312).

Record State : Type := mkState {
  h0 : N; h1 : N; h2 : N; h3 : N; h4 : N; h5 : N; h6 : N; h7 : N
}.

Definition state_of_list (ws : list N) : State :=
  let w k := nth k ws 0 in
  mkState (w 0%nat) (w 1%nat) (w 2%nat) (w 3%nat)
          (w 4%nat) (w 5%nat) (w 6%nat) (w 7%nat).

Definition initial : State :=
  Eval vm_compute in
    state_of_list (map square_root_fraction (primes_below 20)).

(** The [n] low bytes of [x], most significant first *)
Fixpoint be_bytes (n : nat) (x : N) : list N :=
  match n with
  | O => []
  | S m => N.land (N.shiftr x (8 * N.of_nat m)) 0xff :: be_bytes m x
  end.

(** The message, a 1 bit, zero bits up to 56 modulo 64 bytes, and the
    length in bits on 8 bytes. *)
Definition pad (msg : list N) : list N :=
  let len := N.of_nat (length msg) in
  msg ++ [0x80]
      ++ repeat 0 (N.to_nat ((119 - len mod 64) mod 64))
      ++ be_bytes 8 (8 * len).

Fixpoint words (bs : list N) : list N :=
  match bs with
  | b0 :: b1 :: b2 :: b3 :: rest =>
      N.lor (N.lor (N.shiftl b0 24) (N.shiftl b1 16))
            (N.lor (N.shiftl b2 8) b3)
        :: words rest
  | _ => []
  end.

(** The message schedule, newest word first while it is built *)
Definition schedule_step (ws : list N) : list N :=
  let w k := nth k ws 0 in
  add32 (add32 (add32 (sigma1 (w 1%nat)) (w 6%nat)) (sigma0 (w 14%nat)))
        (w 15%nat)
    :: ws.

Definition schedule (block : list N) : list N :=
  rev (Nat.iter 48 schedule_step (rev block)).

Definition round (st : State) (kw : N * N) : State :=
  let t1 :=
    add32 (add32 (add32 (add32 (h7 st) (Sigma1 (h4 st)))
                        (Ch (h4 st) (h5 st) (h6 st)))
                 (fst kw))
          (snd kw) in
  let t2 := add32 (Sigma0 (h0 st)) (Maj (h0 st) (h1 st) (h2 st)) in
  mkState (add32 t1 t2) (h0 st) (h1 st) (h2 st)
          (add32 (h3 st) t1) (h4 st) (h5 st) (h6 st).

Definition compress (st : State) (block : list N) : State :=
  let r := fold_left round (combine K (schedule block)) st in
  mkState (add32 (h0 st) (h0 r)) (add32 (h1 st) (h1 r))
          (add32 (h2 st) (h2 r)) (add32 (h3 st) (h3 r))
          (add32 (h4 st) (h4 r)) (add32 (h5 st) (h5 r))
          (add32 (h6 st) (h6 r)) (add32 (h7 st) (h7 r)).

(** One block of 16 words at a time; [fuel] bounds the number of blocks. *)
Fixpoint blocks (fuel : nat) (ws : list N) (st : State) : State :=
  match fuel, ws with
  | S fuel', _ :: _ => blocks fuel' (skipn 16 ws) (compress st (firstn 16 ws))
  | _, _ => st
  end.

Definition bytes_of_string (s : string) : list N :=
  map N_of_ascii (list_ascii_of_string s).

(** [hashlib.sha256(data).digest()], as a list of 32 bytes *)
Definition digest (data : string) : list N :=
  let ws := words (pad (bytes_of_string data)) in
  let st := blocks (length ws) ws initial in
  flat_map (be_bytes 4)
    [h0 st; h1 st; h2 st; h3 st; h4 st; h5 st; h6 st; h7 st].

Definition hex_digit (n : N) : ascii :=
  match n with
  | 0 => "0" | 1 => "1" | 2 => "2" | 3 => "3" | 4 => "4" | 5 => "5"
  | 6 => "6" | 7 => "7" | 8 => "8" | 9 => "9" | 10 => "a" | 11 => "b"
  | 12 => "c" | 13 => "d" | 14 => "e" | _ => "f"
  end%char.

Fixpoint hex_of_bytes (bs : list N) : string :=
  match bs with
  | [] => EmptyString
  | b :: rest =>
      String (hex_digit (N.shiftr b 4))
        (String (hex_digit (N.land b 0xf)) (hex_of_bytes rest))
  end.

(** [hashlib.sha256(data).hexdigest()] *)
Definition hexdigest (data : string) : string := hex_of_bytes (digest data).

End SHA256.

(** ** urllib.parse.quote *)

(** [s.encode()]: the identity, a [str] being held in UTF-8. *)
Definition encode (s : string) : string := s.

Definition _ALWAYS_SAFE : string :=
  "ABCDEFGHIJKLMNOPQRSTUVWXYZabcdefghijklmnopqrstuvwxyz0123456789_.-~".

(** One digit of the format [X] *)
Definition upper_hex_digit (n : N) : ascii :=
  match n with
  | 0 => "0" | 1 => "1" | 2 => "2" | 3 => "3" | 4 => "4" | 5 => "5"
  | 6 => "6" | 7 => "7" | 8 => "8" | 9 => "9" | 10 => "A" | 11 => "B"
  | 12 => "C" | 13 => "D" | 14 => "E" | _ => "F"
  end%N%char.

(** ['%{:02X}'.format(b)] *)
Definition percent_hex (b : ascii) : string :=
  String "%"
    (String (upper_hex_digit (N.shiftr (N_of_ascii b) 4))
       (String (upper_hex_digit (N.land (N_of_ascii b) 15)) EmptyString)).

(** [_Quoter.__missing__] *)
Definition quoter (safe : string) (b : ascii) : string :=
  if contains b safe then String b EmptyString else percent_hex b.

Fixpoint join_map (f : ascii -> string) (bs : string) : string :=
  match bs with
  | EmptyString => EmptyString
  | String b rest => f b ++ join_map f rest
  end.

(** [safe.encode('ascii', 'ignore')] *)
Fixpoint ascii_only (s : string) : string :=
  match s with
  | EmptyString => EmptyString
  | String a rest =>
      if (N_of_ascii a <? 128)%N then String a (ascii_only rest)
      else ascii_only rest
  end.

(** [quote_from_bytes] *)
Definition quote_from_bytes (bs : string) (safe : string) : string :=
  match bs with
  | EmptyString => EmptyString
  | _ =>
      let safe := ascii_only safe in
      match rstrip (_ALWAYS_SAFE ++ safe) bs with
      | EmptyString => bs
      | _ => join_map (quoter (_ALWAYS_SAFE ++ safe)) bs
      end
  end.

(** [quote(string, safe)] on a [str] *)
Definition quote (s : string) (safe : string) : string :=
  match s with
  | EmptyString => s
  | _ => quote_from_bytes (encode s) safe
  end.

(** ** auth.py *)

Definition with_json (payload : JsonValue) : Kwargs :=
  mkKwargs None None (Some payload) None None.

(** [AuthAPI.login], up to the call of the client.  The [LoginResponse]
    record built afterwards is pydantic's work on a value the exchange has
    already returned. *)
Definition login (tr : Transport) (client : BaseClient)
    (username password : string) (otp_code : option string) : Exchange :=
  let payload := [("username", JStr username); ("password", JStr password)] in
  let payload :=
    if truthy otp_code
    then (payload ++ [("otp_code", JStr (default "" otp_code))])%list
    else payload in
  post tr client "/api/auth/login" (with_json (JObj payload)).

(** [AuthAPI.login_hash], up to the call of the client. *)
Definition login_hash (tr : Transport) (client : BaseClient)
    (username password : string) (otp_code : option string) : Exchange :=
  let password_with_suffix :=
    password ++ "-https://github.com/alist-org/alist" in
  let hashed_password := SHA256.hexdigest (encode password_with_suffix) in
  let payload :=
    [("username", JStr username); ("password", JStr hashed_password)] in
  let payload :=
    if truthy otp_code
    then (payload ++ [("otp_code", JStr (default "" otp_code))])%list
    else payload in
  post tr client "/api/auth/login/hash" (with_json (JObj payload)).

(** ** fs.py *)

(** [str(b)] for a [bool] *)
Definition str_bool (b : bool) : string := if b then "True" else "False".

(** [s.lower()] on ASCII text *)
Definition lower_char (c : ascii) : ascii :=
  let n := N_of_ascii c in
  if ((65 <=? n) && (n <=? 90))%N then ascii_of_N (n + 32) else c.

Fixpoint lower (s : string) : string :=
  match s with
  | EmptyString => EmptyString
  | String c rest => String (lower_char c) (lower rest)
  end.

(** [FileSystemAPI.form_upload], up to the call of the client *)
Definition form_upload (tr : Transport) (client : BaseClient)
    (file_path : string) (file : string) (as_task : bool) : Exchange :=
  let headers : gmap string string :=
    <["As-Task" := lower (str_bool as_task)]>
      (<["File-Path" := quote file_path ""]> ∅) in
  let files := [("file", file)] in
  put tr client "/api/fs/form"
    (mkKwargs (Some headers) None None None (Some files)).

(** [FileSystemAPI.stream_upload], up to the call of the client *)
Definition stream_upload (tr : Transport) (client : BaseClient)
    (file_path : string) (file_data : string) (as_task : bool) : Exchange :=
  let headers : gmap string string :=
    <["Content-Type" := "application/octet-stream"]>
      (<["As-Task" := lower (str_bool as_task)]>
         (<["File-Path" := quote file_path ""]> ∅)) in
  put tr client "/api/fs/put"
    (mkKwargs (Some headers) None None (Some file_data) None).

(** ** Dictionaries filled step by step *)

(** [d[key] = v]: the value is replaced where the key is, added at the end
    where it is not. *)
Fixpoint dict_set (fields : list (string * JsonValue)) (key : string)
    (v : JsonValue) : list (string * JsonValue) :=
  match fields with
  | [] => [(key, v)]
  | (k, x) :: rest =>
      if String.eqb k key then (k, v) :: rest
      else (k, x) :: dict_set rest key v
  end.

(** [if arg is not None: d[key] = arg] *)
Definition set_if_given {A : Type} (to_json : A -> JsonValue)
    (fields : list (string * JsonValue)) (key : string) (arg : option A)
    : list (string * JsonValue) :=
  match arg with
  | Some v => dict_set fields key (to_json v)
  | None => fields
  end.

(** The truth value of an [int] *)
Definition truthy_int (n : Z) : bool := negb (n =? 0).

(** [type(v).__name__] for a decoded JSON value *)
Definition type_name (v : JsonValue) : string :=
  match v with
  | JNull => "NoneType"
  | JBool _ => "bool"
  | JNum _ => "int"
  | JStr _ => "str"
  | JArr _ => "list"
  | JObj _ => "dict"
  end.

(** [value.get(key, default)] on whatever a call returned *)
Definition py_get (value : JsonValue) (key : string) (default : JsonValue)
    : PyResult JsonValue :=
  match value with
  | JObj fields => Return (dict_get fields key default)
  | other =>
      Raise (ExnBuiltin "AttributeError"
               ("'" ++ type_name other ++ "' object has no attribute 'get'"))
  end.

(** [return response_data.get(key, default)] after a call *)
Definition return_get (ex : Exchange) (key : string) (default : JsonValue)
    : Exchange :=
  mkExchange (sent ex)
    (let* response_data := outcome ex in py_get response_data key default).

Definition with_params (params : list (string * JsonValue)) : Kwargs :=
  mkKwargs None (Some params) None None None.

(** ** admin/driver.py *)

Module DriverAPI.

(** [DriverAPI.names] *)
Definition names (tr : Transport) (client : BaseClient) : Exchange :=
  return_get (get tr client "/api/admin/driver/names" no_kwargs)
    "data" (JArr []).

End DriverAPI.

(** ** admin/task.py *)

Module TaskAPI.

(** [TaskAPI.get_info] *)
Definition get_info (tr : Transport) (client : BaseClient) (tid : string)
    : Exchange :=
  return_get
    (get tr client "/api/admin/task/upload/info" (with_params [("tid", JStr tid)]))
    "data" (JObj []).

(** [TaskAPI.get_done] *)
Definition get_done (tr : Transport) (client : BaseClient) : Exchange :=
  return_get (get tr client "/api/admin/task/upload/done" no_kwargs)
    "data" (JArr []).

(** [TaskAPI.get_undone] *)
Definition get_undone (tr : Transport) (client : BaseClient) : Exchange :=
  return_get (get tr client "/api/admin/task/upload/undone" no_kwargs)
    "data" (JArr []).

End TaskAPI.

(** ** admin/setting.py *)

Module SettingAPI.

(** [SettingAPI.list] *)
Definition list (tr : Transport) (client : BaseClient) (group : option Z)
    (groups : option string) : Exchange :=
  let params := [] in
  let params := set_if_given (fun g => JStr (str_int g)) params "group" group in
  let params := set_if_given JStr params "groups" groups in
  return_get (get tr client "/api/admin/setting/list" (with_params params))
    "data" (JArr []).

(** [SettingAPI.get]; a [get] with no default yields [None]. *)
Definition get (tr : Transport) (client : BaseClient) (key : string)
    : Exchange :=
  return_get
    (get tr client "/api/admin/setting/get" (with_params [("key", JStr key)]))
    "data" JNull.

End SettingAPI.

(** ** admin/meta.py and admin/storage.py: the paged lists *)

(** The [params] both [list] methods build: [if page:], [if per_page:] *)
Definition page_params (page per_page : Z) : Datatypes.list (string * JsonValue) :=
  let params := [] in
  let params :=
    if truthy_int page then dict_set params "page" (JStr (str_int page))
    else params in
  let params :=
    if truthy_int per_page
    then dict_set params "per_page" (JStr (str_int per_page))
    else params in
  params.

Module MetaAPI.

(** [MetaAPI.list], up to the call of the client *)
Definition list (tr : Transport) (client : BaseClient) (page per_page : Z)
    : Exchange :=
  get tr client "/api/admin/meta/list" (with_params (page_params page per_page)).

End MetaAPI.

Module StorageAPI.

(** [StorageAPI.update], up to the call of the client *)
Definition update (tr : Transport) (client : BaseClient) (storage_id : Z)
    (mount_path driver addition order_by order_direction extract_folder : string)
    (web_proxy enable_sign : bool) (status : string)
    (order cache_expiration : option Z)
    (remark webdav_policy down_proxy_url : option string) : Exchange :=
  let payload :=
    [("id", JNum storage_id); ("mount_path", JStr mount_path);
     ("driver", JStr driver); ("addition", JStr addition);
     ("order_by", JStr order_by); ("order_direction", JStr order_direction);
     ("extract_folder", JStr extract_folder); ("web_proxy", JBool web_proxy);
     ("enable_sign", JBool enable_sign); ("status", JStr status)] in
  let payload := set_if_given JNum payload "order" order in
  let payload := set_if_given JNum payload "cache_expiration" cache_expiration in
  let payload := set_if_given JStr payload "remark" remark in
  let payload := set_if_given JStr payload "webdav_policy" webdav_policy in
  let payload := set_if_given JStr payload "down_proxy_url" down_proxy_url in
  post tr client "/api/admin/storage/update" (with_json (JObj payload)).

(** [StorageAPI.list], up to the call of the client *)
Definition list (tr : Transport) (client : BaseClient) (page per_page : Z)
    : Exchange :=
  get tr client "/api/admin/storage/list"
    (with_params (page_params page per_page)).

End StorageAPI.

(** ** admin/user.py *)

Module UserAPI.

(** [UserAPI.update], up to the call of the client *)
Definition update (tr : Transport) (client : BaseClient) (user_id : Z)
    (username : string) (password base_path : option string)
    (role permission : option Z) (disabled : option bool)
    (sso_id : option string) : Exchange :=
  let payload := [("id", JNum user_id); ("username", JStr username)] in
  let payload := set_if_given JStr payload "password" password in
  let payload := set_if_given JStr payload "base_path" base_path in
  let payload := set_if_given JNum payload "role" role in
  let payload := set_if_given JNum payload "permission" permission in
  let payload := set_if_given JBool payload "disabled" disabled in
  let payload := set_if_given JStr payload "sso_id" sso_id in
  post tr client "/api/admin/user/update" (with_json (JObj payload)).

End UserAPI.

(** ** __init__.py: the facade *)

Module OpenListClient.

(** Objects live in a store, and an attribute that holds an object holds
    its address.  Each API group keeps one attribute, [client]; the facade
    is given here by the address in [_client] and by the [client] of each
    of its groups. *)
Record t : Type := mk {
  _client : nat;
  auth : nat;
  fs : nat;
  public : nat;
  admin_meta : nat;
  admin_user : nat;
  admin_storage : nat;
  admin_driver : nat;
  admin_setting : nat;
  admin_task : nat
}.

(** [OpenListClient.__init__]: one [BaseClient] is made and handed to every
    group. *)
Definition __init__ (store : gmap nat BaseClient) (base_url : string)
    (timeout : Z) : gmap nat BaseClient * t :=
  let address := fresh (dom store) in
  let store := <[address := __init__ base_url timeout None]> store in
  (store,
   mk address address address address address address address address
      address address).

(** [OpenListClient.set_token]: [self._client.set_token(token)] *)
Definition set_token (store : gmap nat BaseClient) (self : t)
    (token : string) : gmap nat BaseClient :=
  alter (fun client => set_token client token) (_client self) store.

(** The property [OpenListClient.token] *)
Definition token (store : gmap nat BaseClient) (self : t) : option string :=
  match store !! _client self with
  | Some client => token client
  | None => None
  end.

End OpenListClient.

(** * What the claims speak of *)

(** ** Outcomes of a call *)

(** The status table of the specification: 400, 401, 403, 404, the 5xx
    codes, and the base class for what remains. *)
Definition kind_of_status (s : Z) : ErrorKind :=
  if s =? 400 then ValidationError
  else if s =? 401 then AuthenticationError
  else if s =? 403 then AuthorizationError
  else if s =? 404 then NotFoundError
  else if (500 <=? s) && (s <=? 599) then ServerError
  else OpenListAPIError.

(** The text [str(e)] of the [HTTPError] of a 4xx or 5xx response. *)
Definition status_line_text (response : Response) : string :=
  str_int (status_code response)
    ++ (if status_code response <? 500 then " Client Error: "
        else " Server Error: ")
    ++ reason response ++ " for url: " ++ url response.

(** The call ended by raising an exception of class [k] of the package. *)
Definition classified_as (k : ErrorKind) (r : PyResult JsonValue) : Prop :=
  exists f, r = Raise (ExnOpenList f) /\ kind f = k.


Definition is_classified_failure (r : PyResult JsonValue) : bool :=
  match r with
  | Raise (ExnOpenList _) => true
  | _ => false
  end.

Definition is_raw_exception (r : PyResult JsonValue) : bool :=
  match r with
  | Raise (ExnRequests _ _) | Raise (ExnBuiltin _ _) => true
  | _ => false
  end.

(** The response the transport gives to the request of a call. *)
Definition answers (tr : Transport) (ex : Exchange) (response : Response)
    : Prop :=
  tr (sent ex) = Responded response.

Definition faults (tr : Transport) (ex : Exchange) (c : RequestsExn)
    (msg : string) : Prop :=
  tr (sent ex) = Faulted c msg.


Definition crashes (tr : Transport) (ex : Exchange) (class_name msg : string)
    : Prop :=
  tr (sent ex) = Crashed class_name msg.

Definition method_of (entry : EntryPoint) : string :=
  match entry with
  | ViaRequest method => method
  | ViaGet => "GET"
  | ViaPost => "POST"
  | ViaPut => "PUT"
  | ViaDelete => "DELETE"
  end.

(** The message the handler computes in its [except HTTPError] clause. *)
Definition error_message_of (response : Response) : JsonValue :=
  match body response with
  | JsonBody (JObj fields) =>
      dict_get fields "message" (JStr (status_line_text response))
  | _ => JStr (status_line_text response)
  end.


(** [d.get(key)] *)
Fixpoint dict_lookup (fields : list (string * JsonValue)) (key : string)
    : option JsonValue :=
  match fields with
  | [] => None
  | (k, v) :: rest => if String.eqb k key then Some v else dict_lookup rest key
  end.

(** A field of the JSON object a call sent as its body *)
Definition sent_field (ex : Exchange) (key : string) : option JsonValue :=
  match sent_json (sent ex) with
  | Some (JObj fields) => dict_lookup fields key
  | _ => None
  end.

(** The HTTP statuses that have a class of their own. *)
Definition has_own_class (s : Z) : bool :=
  (s =? 400) || (s =? 401) || (s =? 403) || (s =? 404)
  || ((500 <=? s) && (s <=? 599)).

(** The call ended by raising the only exception [f], of class [k]. *)
Definition fails_exactly_as (k : ErrorKind) (r : PyResult JsonValue) : Prop :=
  exists! f, r = Raise (ExnOpenList f) /\ kind f = k.

(** ** Percent-encoding, after RFC 3986 *)

(** ALPHA, DIGIT, "-", ".", "_" and "~" *)
Definition unreserved (c : ascii) : bool :=
  let n := N_of_ascii c in
  ((65 <=? n) && (n <=? 90) || (97 <=? n) && (n <=? 122)
   || (48 <=? n) && (n <=? 57)
   || (n =? 45) || (n =? 46) || (n =? 95) || (n =? 126))%N.

(** "%" and the two upper-case hexadecimal digits of the octet *)
Definition pct_encoded (c : ascii) : string :=
  String "%"
    (String (upper_hex_digit (N_of_ascii c / 16))
       (String (upper_hex_digit (N_of_ascii c mod 16)) EmptyString)).

Definition percent_encode (s : string) : string :=
  join_map (fun c => if unreserved c then String c EmptyString
                     else pct_encoded c) s.

Definition hex_value (c : ascii) : option N :=
  let n := N_of_ascii c in
  (if (48 <=? n) && (n <=? 57) then Some (n - 48)
   else if (65 <=? n) && (n <=? 70) then Some (n - 55)
   else if (97 <=? n) && (n <=? 102) then Some (n - 87)
   else None)%N.

Definition hex_pair (a b : ascii) : option ascii :=
  match hex_value a, hex_value b with
  | Some x, Some y => Some (ascii_of_N (16 * x + y))
  | _, _ => None
  end.

Fixpoint percent_decode (s : string) : string :=
  match s with
  | EmptyString => EmptyString
  | String c rest =>
      match rest with
      | String a (String b rest') =>
          match (if Ascii.eqb c "%" then hex_pair a b else None) with
          | Some octet => String octet (percent_decode rest')
          | None => String c (percent_decode rest)
          end
      | _ => String c (percent_decode rest)
      end
  end.

Fixpoint string_forall (p : ascii -> bool) (s : string) : bool :=
  match s with
  | EmptyString => true
  | String c rest => p c && string_forall p rest
  end.

Definition is_lower_hex (c : ascii) : bool := contains c "0123456789abcdef".

(** ** Data to try the definitions on *)

Definition demo_client : BaseClient :=
  set_token (__init__ "http://localhost:5244/" 30 None) "eyJhbGciOiJIUzI1NiJ9".

Definition always (response : Response) : Transport :=
  fun _ => Responded response.

Definition unauthorized : Response :=
  mkResponse 401 "Unauthorized" "http://localhost:5244/api/me"
    (JsonBody (JObj [("code", JNum 401);
                     ("message", JStr "token is invalidated");
                     ("data", JNull)])).

Definition bad_gateway : Response :=
  mkResponse 502 "Bad Gateway" "http://localhost:5244/api/me"
    (MalformedBody "<html>502</html>"
       "Expecting value: line 1 column 1 (char 0)").

Definition not_modified : Response :=
  mkResponse 304 "Not Modified" "http://localhost:5244/api/me"
    (MalformedBody "" "Expecting value: line 1 column 1 (char 0)").

Definition pong : Response :=
  mkResponse 200 "OK" "http://localhost:5244/ping" (JsonBody (JStr "pong")).


Definition times_out : Transport :=
  fun _ => Faulted ConnectTimeout "HTTPConnectionPool: connect timed out".

Definition teapot : Response :=
  mkResponse 418 "I'm a teapot" "http://localhost:5244/api/me"
    (JsonBody (JObj [("code", JNum 418); ("message", JStr "short and stout")])).


(** ** More to state properties with *)

(** The last character of a text *)
Fixpoint last_char (s : string) : option ascii :=
  match s with
  | EmptyString => None
  | String c EmptyString => Some c
  | String _ rest => last_char rest
  end.

(** The text made of [k] times the character [c] *)
Fixpoint repeat_char (c : ascii) (k : nat) : string :=
  match k with
  | O => EmptyString
  | S k' => String c (repeat_char c k')
  end.

(** How many characters of [s] satisfy [p] *)
Fixpoint count_chars (p : ascii -> bool) (s : string) : nat :=
  match s with
  | EmptyString => O
  | String c rest => (if p c then 1 else 0) + count_chars p rest
  end.

(** The keys of a dictionary, in their order *)
Definition dict_keys (fields : list (string * JsonValue)) : list string :=
  map fst fields.

(** The query parameter a call sent under [key] *)
Definition sent_param (ex : Exchange) (key : string) : option JsonValue :=
  match sent_params (sent ex) with
  | Some params => dict_lookup params key
  | None => None
  end.

(** The exception of the package a call ended with, if it ended so *)
Definition failure_of (r : PyResult JsonValue) : option Failure :=
  match r with
  | Raise (ExnOpenList f) => Some f
  | _ => None
  end.

Definition outside_error_range (s : Z) : Prop := s < 400 \/ 600 <= s.

Definition data_reply (data : JsonValue) : Response :=
  mkResponse 200 "OK" "http://localhost:5244/api/admin/driver/names"
    (JsonBody (JObj [("code", JNum 200); ("message", JStr "success");
                     ("data", data)])).

Definition bare_list_reply : Response :=
  mkResponse 200 "OK" "http://localhost:5244/api/admin/driver/names"
    (JsonBody (JArr [JStr "Local"; JStr "S3"])).

(** The [client] of every API group of a facade *)
Definition facade_groups (self : OpenListClient.t) : list nat :=
  [OpenListClient.auth self; OpenListClient.fs self;
   OpenListClient.public self; OpenListClient.admin_meta self;
   OpenListClient.admin_user self; OpenListClient.admin_storage self;
   OpenListClient.admin_driver self; OpenListClient.admin_setting self;
   OpenListClient.admin_task self].

(** What [AttributeError] says of a value that has no [get] *)
Definition no_get_attribute (v : JsonValue) : PyExn :=
  ExnBuiltin "AttributeError"
    ("'" ++ type_name v ++ "' object has no attribute 'get'").

Definition is_object (v : JsonValue) : bool :=
  match v with
  | JObj _ => true
  | _ => false
  end.



(** [len(s.encode())]: the number of octets of a text in UTF-8 *)
Definition utf8_length (s : string) : nat := String.length (encode s).

(** The text is 64 lower-case hexadecimal digits, as a SHA-256 digest in
    hexadecimal is. *)
Definition is_sha256_hex (s : string) : bool :=
  Nat.eqb (String.length s) 64 && string_forall is_lower_hex s.

(** * The transport core: theorems *)

(** ** The wrappers are [_request] at a fixed method *)

Lemma call_is_request entry tr self endpoint kwargs :
  call entry tr self endpoint kwargs
  = _request tr self (method_of entry) endpoint kwargs.
Proof. destruct entry; reflexivity. Qed.

Lemma put_is_call tr self endpoint kwargs :
  put tr self endpoint kwargs = call ViaPut tr self endpoint kwargs.
Proof. reflexivity. Qed.

(** ** [_handle_response], branch by branch *)

Ltac split_status :=
  rewrite ?Z.geb_leb;
  repeat match goal with
  | |- context [(?x =? ?y)] => case (Z.eqb_spec x y); intro
  | |- context [(?x <=? ?y)] => case (Z.leb_spec x y); intro
  | |- context [(?x <? ?y)] => case (Z.ltb_spec x y); intro
  end;
  simpl; try lia; try reflexivity.

Lemma raise_for_status_error response :
  400 <= status_code response < 600 ->
  raise_for_status response
  = Raise (ExnRequests HTTPError (status_line_text response)).
Proof.
  intros Hs. unfold raise_for_status, status_line_text.
  split_status.
Qed.

Lemma raise_for_status_pass response :
  status_code response < 400 \/ 600 <= status_code response ->
  raise_for_status response = Return tt.
Proof.
  intros Hs. unfold raise_for_status. split_status.
Qed.

Lemma inner_message response e :
  match (let* error_data := json response in get_message error_data (JStr e))
  with
  | Return m => m
  | Raise _ => JStr e
  end
  = match body response with
    | JsonBody (JObj fields) => dict_get fields "message" (JStr e)
    | _ => JStr e
    end.
Proof.
  unfold json. destruct (body response) as [v | text err | text name err];
    simpl.
  - destruct v; reflexivity.
  - reflexivity.
  - reflexivity.
Qed.

Lemma handle_response_error response :
  400 <= status_code response < 600 ->
  _handle_response response
  = raise3 (kind_of_status (status_code response)) (error_message_of response)
      (status_code response) response.
Proof.
  intros Hs. unfold _handle_response.
  rewrite (raise_for_status_error _ Hs). cbn [py_bind is_HTTPError].
  rewrite inner_message. fold (error_message_of response).
  unfold kind_of_status. split_status.
Qed.

Lemma handle_response_pass response :
  status_code response < 400 \/ 600 <= status_code response ->
  _handle_response response = json response.
Proof.
  intros Hs. unfold _handle_response.
  rewrite (raise_for_status_pass _ Hs). cbn [py_bind].
  unfold json. destruct (body response); reflexivity.
Qed.

Lemma call_answered entry tr self endpoint kwargs response :
  answers tr (call entry tr self endpoint kwargs) response ->
  outcome (call entry tr self endpoint kwargs)
  = _request_except (_handle_response response).
Proof.
  rewrite call_is_request. unfold answers, _request. cbn [sent outcome].
  intros Htr. unfold session_request. rewrite Htr. reflexivity.
Qed.

Lemma call_faulted entry tr self endpoint kwargs c msg :
  faults tr (call entry tr self endpoint kwargs) c msg ->
  outcome (call entry tr self endpoint kwargs)
  = _request_except (Raise (ExnRequests c msg)).
Proof.
  rewrite call_is_request. unfold faults, _request. cbn [sent outcome].
  intros Htr. unfold session_request. rewrite Htr. reflexivity.
Qed.

Lemma call_status_error entry tr self endpoint kwargs response :
  answers tr (call entry tr self endpoint kwargs) response ->
  400 <= status_code response < 600 ->
  outcome (call entry tr self endpoint kwargs)
  = raise3 (kind_of_status (status_code response)) (error_message_of response)
      (status_code response) response.
Proof.
  intros Htr Hs. rewrite (call_answered _ _ _ _ _ _ Htr).
  rewrite (handle_response_error _ Hs). reflexivity.
Qed.

Lemma call_status_pass entry tr self endpoint kwargs response :
  answers tr (call entry tr self endpoint kwargs) response ->
  status_code response < 400 \/ 600 <= status_code response ->
  outcome (call entry tr self endpoint kwargs)
  = match body response with
    | JsonBody v => Return v
    | MalformedBody _ err => raise1 NetworkError ("网络错误: " ++ err)
    | UndecodedBody _ class_name err => Raise (ExnBuiltin class_name err)
    end.
Proof.
  intros Htr Hs. rewrite (call_answered _ _ _ _ _ _ Htr).
  rewrite (handle_response_pass _ Hs). unfold json.
  destruct (body response); reflexivity.
Qed.

Lemma call_crashed entry tr self endpoint kwargs class_name msg :
  crashes tr (call entry tr self endpoint kwargs) class_name msg ->
  outcome (call entry tr self endpoint kwargs)
  = Raise (ExnBuiltin class_name msg).
Proof.
  rewrite call_is_request. unfold crashes, _request. cbn [sent outcome].
  intros Htr. unfold session_request. rewrite Htr. reflexivity.
Qed.

(** Every call hands exactly one request to the transport, which answers,
    raises an exception of [requests], or raises another exception. *)
Lemma transport_cases (tr : Transport) (ex : Exchange) :
  (exists response, answers tr ex response)
  \/ (exists c msg, faults tr ex c msg)
  \/ (exists class_name msg, crashes tr ex class_name msg).
Proof.
  unfold answers, faults, crashes.
  destruct (tr (sent ex)) as [response | c msg | class_name msg].
  - left. exists response. reflexivity.
  - right. left. exists c, msg. reflexivity.
  - right. right. exists class_name, msg. reflexivity.
Qed.

(** ** The definitions at work *)

Example base_url_normalized : base_url demo_client = "http://localhost:5244".
Proof. reflexivity. Qed.

Example unauthorized_call :
  outcome (get (always unauthorized) demo_client "/api/me" no_kwargs)
  = raise3 AuthenticationError (JStr "token is invalidated") 401 unauthorized.
Proof. reflexivity. Qed.

Example bad_gateway_call :
  outcome (get (always bad_gateway) demo_client "/api/me" no_kwargs)
  = raise3 ServerError
      (JStr "502 Server Error: Bad Gateway for url: http://localhost:5244/api/me")
      502 bad_gateway.
Proof. reflexivity. Qed.

Example pong_call :
  outcome (get (always pong) demo_client "/ping" no_kwargs)
  = Return (JStr "pong").
Proof. reflexivity. Qed.

Example timeout_call :
  outcome (post times_out demo_client "/api/fs/mkdir" no_kwargs)
  = raise1 NetworkError "请求超时: HTTPConnectionPool: connect timed out".
Proof. reflexivity. Qed.

Example teapot_call :
  outcome (delete (always teapot) demo_client "/api/me" no_kwargs)
  = raise3 OpenListAPIError (JStr "short and stout") 418 teapot.
Proof. reflexivity. Qed.

(** Only the exceptions of [requests] are caught by [_request]: any other
    exception would pass its three clauses unchanged. *)
Lemma request_except_passes_builtin {A : Type} name msg :
  @_request_except A (Raise (ExnBuiltin name msg)) = Raise (ExnBuiltin name msg).
Proof. reflexivity. Qed.

Lemma request_except_catches {A : Type} c msg :
  exists prefix,
    In prefix ["请求超时: "; "连接失败: "; "网络错误: "]
    /\ @_request_except A (Raise (ExnRequests c msg))
       = raise1 NetworkError (prefix ++ msg).
Proof.
  unfold _request_except.
  destruct (is_Timeout c); [| destruct (is_ConnectionError c)];
    eexists; (split; [| reflexivity]); simpl; tauto.
Qed.

Lemma dict_get_lookup fields key default :
  dict_get fields key default
  = match dict_lookup fields key with
    | Some v => v
    | None => default
    end.
Proof.
  induction fields as [| [k v] rest IH]; simpl.
  - reflexivity.
  - destruct (String.eqb k key); [reflexivity | exact IH].
Qed.

Lemma raise3_exactly k msg status response :
  fails_exactly_as k (raise3 k msg status response).
Proof.
  exists (mkFailure k msg (Some status) (Some response)). split.
  - split; reflexivity.
  - intros f' [Heq _]. unfold raise3 in Heq. congruence.
Qed.

(** ** Status codes and classes *)

(** C1. A response with status 400, 401, 403 or 404, or with a 5xx status,
    makes the call (through [_request] or any of [get], [post], [put],
    [delete]) raise exactly one exception of the package, of the class that
    stands for the status: [ValidationError], [AuthenticationError],
    [AuthorizationError], [NotFoundError], [ServerError]. *)
Theorem status_maps_to_exact_kind entry tr self endpoint kwargs response :
  answers tr (call entry tr self endpoint kwargs) response ->
  let out := outcome (call entry tr self endpoint kwargs) in
  let s := status_code response in
  (s = 400 -> fails_exactly_as ValidationError out)
  /\ (s = 401 -> fails_exactly_as AuthenticationError out)
  /\ (s = 403 -> fails_exactly_as AuthorizationError out)
  /\ (s = 404 -> fails_exactly_as NotFoundError out)
  /\ (500 <= s <= 599 -> fails_exactly_as ServerError out).
Proof.
  intros Htr out s.
  assert (Hout : 400 <= s < 600 ->
                 fails_exactly_as (kind_of_status s) out).
  { intros Hs. unfold out.
    rewrite (call_status_error _ _ _ _ _ _ Htr Hs). apply raise3_exactly. }
  repeat split; intros Hs.
  - replace ValidationError with (kind_of_status s)
      by (rewrite Hs; reflexivity). apply Hout. lia.
  - replace AuthenticationError with (kind_of_status s)
      by (rewrite Hs; reflexivity). apply Hout. lia.
  - replace AuthorizationError with (kind_of_status s)
      by (rewrite Hs; reflexivity). apply Hout. lia.
  - replace NotFoundError with (kind_of_status s)
      by (rewrite Hs; reflexivity). apply Hout. lia.
  - replace ServerError with (kind_of_status s).
    + apply Hout. lia.
    + unfold kind_of_status. split_status.
Qed.

Lemma status_maps_to_exact_kind_witness :
  fails_exactly_as AuthenticationError
    (outcome (call ViaGet (always unauthorized) demo_client "/api/me" no_kwargs))
  /\ fails_exactly_as ServerError
    (outcome (call (ViaRequest "PATCH") (always bad_gateway) demo_client
                "/api/me" no_kwargs)).
Proof.
  split.
  - apply (status_maps_to_exact_kind ViaGet (always unauthorized) demo_client
             "/api/me" no_kwargs unauthorized); reflexivity.
  - apply (status_maps_to_exact_kind (ViaRequest "PATCH") (always bad_gateway)
             demo_client "/api/me" no_kwargs bad_gateway);
      [reflexivity | simpl; lia].
Defined.

(** ** Two ways for a call to end *)






(** ** The statuses with no class of their own *)

(** C3, as stated, fails: a 304 response is not an error for
    [raise_for_status], so no status branch is taken; its empty body is
    handed to the JSON decoder and the call ends with [NetworkError], not
    with the base class. *)
Lemma not_modified_is_not_generic :
  let out :=
    outcome (call ViaGet (always not_modified) demo_client "/api/me" no_kwargs)
  in
  status_code not_modified = 304
  /\ has_own_class (status_code not_modified) = false
  /\ out = raise1 NetworkError
             "网络错误: Expecting value: line 1 column 1 (char 0)"
  /\ ~ classified_as OpenListAPIError out.
Proof.
  repeat split. intros (f & Heq & Hkind).
  cbv in Heq. injection Heq as <-. discriminate Hkind.
Qed.

(** C3, amended. A 4xx status other than 400, 401, 403 and 404 makes the
    call raise the base class [OpenListAPIError], with the status and the
    response attached.  A status below 400 or from 600 up takes no status
    branch: the body is decoded as for a 2xx response. *)
Theorem other_4xx_is_generic entry tr self endpoint kwargs response :
  answers tr (call entry tr self endpoint kwargs) response ->
  let out := outcome (call entry tr self endpoint kwargs) in
  let s := status_code response in
  (400 <= s <= 499 -> has_own_class s = false ->
   fails_exactly_as OpenListAPIError out
   /\ out = raise3 OpenListAPIError (error_message_of response) s response)
  /\ (s < 400 \/ 600 <= s ->
      out = match body response with
            | JsonBody v => Return v
            | MalformedBody _ err => raise1 NetworkError ("网络错误: " ++ err)
            | UndecodedBody _ class_name err =>
                Raise (ExnBuiltin class_name err)
            end).
Proof.
  intros Htr out s. split.
  - intros Hs Hown.
    assert (Hk : kind_of_status s = OpenListAPIError).
    { revert Hown. unfold has_own_class, kind_of_status. split_status.
      all: discriminate. }
    unfold out. rewrite (call_status_error _ _ _ _ _ _ Htr) by (fold s; lia).
    fold s. rewrite Hk. split; [apply raise3_exactly | reflexivity].
  - intros Hs. unfold out. apply (call_status_pass _ _ _ _ _ _ Htr Hs).
Qed.

Lemma other_4xx_is_generic_witness :
  fails_exactly_as OpenListAPIError
    (outcome (call ViaDelete (always teapot) demo_client "/api/me" no_kwargs))
  /\ outcome (call ViaGet (always not_modified) demo_client "/api/me" no_kwargs)
     = raise1 NetworkError "网络错误: Expecting value: line 1 column 1 (char 0)".
Proof.
  split.
  - apply (other_4xx_is_generic ViaDelete (always teapot) demo_client
             "/api/me" no_kwargs teapot);
      [reflexivity | simpl; lia | reflexivity].
  - apply (other_4xx_is_generic ViaGet (always not_modified) demo_client
             "/api/me" no_kwargs not_modified);
      [reflexivity | simpl; lia].
Defined.

(** ** Success *)



(** ** Transport faults *)



(** ** What a status failure carries *)




(** ** The headers of a request *)

Lemma call_headers entry tr self endpoint kwargs :
  sent_headers (sent (call entry tr self endpoint kwargs))
  = match kw_headers kwargs with
    | Some other => other ∪ _get_headers self
    | None => _get_headers self
    end.
Proof. rewrite call_is_request. reflexivity. Qed.

Lemma truthy_nonempty (s : string) : s <> "" -> truthy (Some s) = true.
Proof. destruct s; [congruence | reflexivity]. Qed.

Lemma truthy_false (t : option string) :
  t = None \/ t = Some "" -> truthy t = false.
Proof. intros [-> | ->]; reflexivity. Qed.

Lemma get_headers_with_token self credential :
  credential <> "" ->
  _get_headers (set_token self credential) !! "Authorization" = Some credential.
Proof.
  intros Hne. unfold _get_headers, set_token. cbn [token].
  rewrite (truthy_nonempty _ Hne). cbn [default]. apply lookup_insert_eq.
Qed.

Lemma get_headers_without_token self :
  token self = None \/ token self = Some "" ->
  _get_headers self = <["Content-Type" := "application/json"]> ∅.
Proof.
  intros Hfalsy. unfold _get_headers. rewrite (truthy_false _ Hfalsy).
  reflexivity.
Qed.

(** C6, as stated, fails twice.  After [set_token("")] the request carries
    no [Authorization] header at all, where the claim has one whose value
    is the empty credential.  And the caller's own headers are merged
    after the credential's: an [Authorization] among them replaces it. *)
Lemma credential_is_not_always_sent :
  let empty := set_token demo_client "" in
  let plain := sent (call ViaGet (always pong) empty "/ping" no_kwargs) in
  let other : gmap string string := <["Authorization" := "Bearer abc"]> ∅ in
  let own :=
    sent (call ViaGet (always pong) (set_token demo_client "s3cr3t") "/ping"
            (mkKwargs (Some other) None None None None)) in
  token empty = Some ""
  /\ sent_headers plain !! "Authorization" = None
  /\ sent_headers plain !! "Authorization" <> Some ""
  /\ sent_headers own !! "Authorization" = Some "Bearer abc"
  /\ sent_headers own !! "Authorization" <> Some "s3cr3t".
Proof.
  split; [reflexivity | split; [reflexivity | split; [| split]]].
  - intros H. vm_compute in H. discriminate H.
  - reflexivity.
  - intros H. vm_compute in H. discriminate H.
Qed.

(** C6, amended. After the setter is given a credential that is not the
    empty string, every call whose own headers name no [Authorization]
    sends the header [Authorization] with the credential as it is, no
    prefix added. *)
Theorem credential_sent_verbatim entry tr self endpoint kwargs credential :
  credential <> "" ->
  (forall other : gmap string string,
     kw_headers kwargs = Some other -> other !! "Authorization" = None) ->
  sent_headers
    (sent (call entry tr (set_token self credential) endpoint kwargs))
    !! "Authorization"
  = Some credential.
Proof.
  intros Hne Hother. rewrite call_headers.
  destruct (kw_headers kwargs) as [other |].
  - rewrite lookup_union_r by (apply Hother; reflexivity).
    apply get_headers_with_token, Hne.
  - apply get_headers_with_token, Hne.
Qed.

Lemma credential_sent_verbatim_witness :
  sent_headers
    (sent (call ViaPost (always pong) (set_token demo_client "s3cr3t")
             "/api/fs/list"
             (mkKwargs (Some (<["X-Trace" := "1"]> ∅)) None None None None)))
    !! "Authorization"
  = Some "s3cr3t".
Proof.
  apply (credential_sent_verbatim ViaPost (always pong) demo_client
           "/api/fs/list"
           (mkKwargs (Some (<["X-Trace" := "1"]> ∅)) None None None None)
           "s3cr3t").
  - discriminate.
  - intros other Heq. injection Heq as <-. reflexivity.
Defined.

(** C10. With the credential unset or empty, the core attaches no
    [Authorization] header to any call: the headers it builds are the
    default [Content-Type] alone, the same for the empty string as for no
    credential, and the request has an [Authorization] header only when the
    caller's own headers bring one. *)
Theorem falsy_credential_attaches_no_authorization
    entry tr self endpoint kwargs :
  token self = None \/ token self = Some "" ->
  _get_headers self !! "Authorization" = None
  /\ _get_headers self
     = _get_headers (mkBaseClient (base_url self) (timeout self) None)
  /\ _get_headers (set_token self "") = _get_headers self
  /\ sent_headers (sent (call entry tr self endpoint kwargs)) !! "Authorization"
     = match kw_headers kwargs with
       | Some other => other !! "Authorization"
       | None => None
       end.
Proof.
  intros Hfalsy.
  assert (Hnone : _get_headers self !! "Authorization" = None).
  { rewrite (get_headers_without_token _ Hfalsy).
    rewrite lookup_insert_ne by discriminate. apply lookup_empty. }
  repeat split.
  - exact Hnone.
  - rewrite (get_headers_without_token _ Hfalsy). reflexivity.
  - rewrite (get_headers_without_token _ Hfalsy). reflexivity.
  - rewrite call_headers. destruct (kw_headers kwargs) as [other |].
    + apply lookup_union_l, Hnone.
    + exact Hnone.
Qed.

Lemma falsy_credential_attaches_no_authorization_witness :
  sent_headers
    (sent (call ViaGet (always pong) (set_token demo_client "") "/api/me"
             no_kwargs))
    !! "Authorization"
  = None.
Proof.
  apply (falsy_credential_attaches_no_authorization ViaGet (always pong)
           (set_token demo_client "") "/api/me" no_kwargs).
  right. reflexivity.
Defined.

(** * The hashed login *)

(** ** SHA-256 on the vectors of FIPS 180-4 *)

Example sha256_constants :
  length SHA256.K = 64%nat
  /\ nth 0 SHA256.K 0%N = 0x428a2f98%N
  /\ nth 63 SHA256.K 0%N = 0xc67178f2%N
  /\ SHA256.h0 SHA256.initial = 0x6a09e667%N
  /\ SHA256.h7 SHA256.initial = 0x5be0cd19%N.
Proof. repeat split. Qed.

Example sha256_of_empty :
  SHA256.hexdigest ""
  = "e3b0c44298fc1c149afbf4c8996fb92427ae41e4649b934ca495991b7852b855".
Proof. vm_compute. reflexivity. Qed.

Example sha256_of_abc :
  SHA256.hexdigest "abc"
  = "ba7816bf8f01cfea414140de5dae2223b00361a396177a9cb410ff61f20015ad".
Proof. vm_compute. reflexivity. Qed.

Example sha256_of_two_blocks :
  SHA256.hexdigest "abcdbcdecdefdefgefghfghighijhijkijkljklmklmnlmnomnopnopq"
  = "248d6a61d20638b8e5c026930c3e6039a33ce45964ff2167f6ecedd419db06c1".
Proof. vm_compute. reflexivity. Qed.

(** ** The shape of a digest *)

Lemma hex_digit_lower n : is_lower_hex (SHA256.hex_digit n) = true.
Proof.
  unfold SHA256.hex_digit.
  repeat match goal with
  | |- context [match ?x with _ => _ end] => destruct x
  end; reflexivity.
Qed.

Lemma hex_of_bytes_lower bs :
  string_forall is_lower_hex (SHA256.hex_of_bytes bs) = true.
Proof.
  induction bs as [| b rest IH]; [reflexivity |].
  cbn [SHA256.hex_of_bytes string_forall].
  rewrite !hex_digit_lower, IH. reflexivity.
Qed.

Lemma hex_of_bytes_length bs :
  String.length (SHA256.hex_of_bytes bs) = (2 * length bs)%nat.
Proof.
  induction bs as [| b rest IH]; [reflexivity |].
  cbn [SHA256.hex_of_bytes String.length length]. rewrite IH. lia.
Qed.

Lemma digest_length data : length (SHA256.digest data) = 32%nat.
Proof. reflexivity. Qed.

Lemma hexdigest_shape data :
  String.length (SHA256.hexdigest data) = 64%nat
  /\ string_forall is_lower_hex (SHA256.hexdigest data) = true.
Proof.
  unfold SHA256.hexdigest. split.
  - rewrite hex_of_bytes_length, digest_length. reflexivity.
  - apply hex_of_bytes_lower.
Qed.

Lemma login_hash_fields tr client username password otp_code :
  sent_json (sent (login_hash tr client username password otp_code))
  = Some (JObj
      ([("username", JStr username);
        ("password",
         JStr (SHA256.hexdigest
                 (password ++ "-https://github.com/alist-org/alist")))]
       ++ (if truthy otp_code
           then [("otp_code", JStr (default "" otp_code))]
           else []))%list).
Proof.
  unfold login_hash, encode, post, _request, with_json. cbn [sent sent_json kw_json].
  destruct (truthy otp_code); reflexivity.
Qed.

(** C8. Whatever the user name and the password, [login_hash] posts to
    [/api/auth/login/hash] a JSON object whose [password] field is the
    SHA-256 digest, in 64 lower-case hexadecimal digits, of the password
    followed by "-https://github.com/alist-org/alist", and whose
    [username] field is the user name.  For "admin" and "password123" the
    field is the digest of "password123-https://github.com/alist-org/alist".
    The body sent depends on the arguments alone: neither the client
    (address, timeout, credential) nor the transport has a part in it. *)
Theorem login_hash_sends_suffixed_sha256
    tr client username password otp_code :
  let ex := login_hash tr client username password otp_code in
  let hashed :=
    SHA256.hexdigest (password ++ "-https://github.com/alist-org/alist") in
  sent_method (sent ex) = "POST"
  /\ sent_url (sent ex) = base_url client ++ "/api/auth/login/hash"
  /\ sent_field ex "username" = Some (JStr username)
  /\ sent_field ex "password" = Some (JStr hashed)
  /\ String.length hashed = 64%nat
  /\ string_forall is_lower_hex hashed = true
  /\ sent_field (login_hash tr client "admin" "password123" otp_code) "password"
     = Some (JStr
          "046119821c86ff68c103f32322077b108bde0d58d09c9f85cf98c3471aafa17e")
  /\ (forall tr' client',
        sent_json (sent (login_hash tr' client' username password otp_code))
        = sent_json (sent ex)).
Proof.
  intros ex hashed.
  assert (Hfield : forall u p,
            sent_field (login_hash tr client u p otp_code) "password"
            = Some (JStr (SHA256.hexdigest
                            (p ++ "-https://github.com/alist-org/alist")))).
  { intros u p. unfold sent_field. rewrite login_hash_fields.
    generalize (SHA256.hexdigest (p ++ "-https://github.com/alist-org/alist")).
    intros h. reflexivity. }
  split; [reflexivity |]. split; [reflexivity |].
  split.
  { unfold sent_field, ex. rewrite login_hash_fields.
    generalize (SHA256.hexdigest
                  (password ++ "-https://github.com/alist-org/alist")).
    intros h. reflexivity. }
  split; [apply Hfield |].
  split; [apply hexdigest_shape |]. split; [apply hexdigest_shape |].
  split.
  - rewrite Hfield. vm_compute. reflexivity.
  - intros tr' client'. unfold ex. rewrite !login_hash_fields. reflexivity.
Qed.

Example login_hash_admin :
  sent_json (sent (login_hash times_out demo_client "admin" "password123" None))
  = Some (JObj
      [("username", JStr "admin");
       ("password",
        JStr "046119821c86ff68c103f32322077b108bde0d58d09c9f85cf98c3471aafa17e")]).
Proof. vm_compute. reflexivity. Qed.

(** The plain login sends the password as it is. *)
Example login_admin :
  sent_field (login times_out demo_client "admin" "password123" None) "password"
  = Some (JStr "password123").
Proof. reflexivity. Qed.

(** * The uploads *)

(** ** [quote] with no safe character is percent-encoding *)

Ltac by_octet c := destruct c as [[] [] [] [] [] [] [] []]; vm_compute.

Lemma contains_always_safe c : contains c _ALWAYS_SAFE = unreserved c.
Proof. by_octet c; reflexivity. Qed.

Lemma percent_hex_pct_encoded c : percent_hex c = pct_encoded c.
Proof. by_octet c; reflexivity. Qed.

Lemma hex_pair_of_pct c :
  hex_pair (upper_hex_digit (N_of_ascii c / 16))
           (upper_hex_digit (N_of_ascii c mod 16)) = Some c.
Proof. by_octet c; reflexivity. Qed.

Lemma unreserved_not_percent c :
  unreserved c = true -> Ascii.eqb c "%" = false.
Proof. by_octet c; intros H; first [reflexivity | discriminate H]. Qed.

Lemma pct_encoded_charset c :
  string_forall (fun a => unreserved a || Ascii.eqb a "%") (pct_encoded c)
  = true.
Proof. by_octet c; reflexivity. Qed.

Lemma quoter_always_safe c :
  quoter _ALWAYS_SAFE c
  = if unreserved c then String c EmptyString else pct_encoded c.
Proof.
  unfold quoter. rewrite contains_always_safe, percent_hex_pct_encoded.
  reflexivity.
Qed.

Lemma join_map_ext f g s :
  (forall c, f c = g c) -> join_map f s = join_map g s.
Proof.
  intros Hfg. induction s as [| c rest IH]; [reflexivity |].
  cbn [join_map]. rewrite Hfg, IH. reflexivity.
Qed.

(** The shortcut of [quote_from_bytes]: a text that [rstrip] empties is
    made of safe characters, and quoting it changes nothing. *)
Lemma rstrip_empty_join_map chars s :
  rstrip chars s = "" -> join_map (quoter chars) s = s.
Proof.
  induction s as [| c rest IH]; [reflexivity |].
  cbn [rstrip join_map]. destruct (rstrip chars rest) eqn:Hrest.
  - destruct (contains c chars) eqn:Hc; [| discriminate].
    intros _.
    assert (Hq : quoter chars c = String c EmptyString)
      by (unfold quoter; rewrite Hc; reflexivity).
    rewrite Hq, IH by first [exact Hrest | reflexivity]. reflexivity.
  - discriminate.
Qed.

Lemma quote_is_percent_encode s : quote s "" = percent_encode s.
Proof.
  unfold percent_encode.
  rewrite <- (join_map_ext _ _ s quoter_always_safe).
  destruct s as [| c rest]; [reflexivity |].
  unfold quote, encode, quote_from_bytes. cbn [ascii_only].
  change (_ALWAYS_SAFE ++ "") with _ALWAYS_SAFE.
  destruct (rstrip _ALWAYS_SAFE (String c rest)) eqn:Hstrip.
  - symmetry. apply rstrip_empty_join_map, Hstrip.
  - reflexivity.
Qed.

(** ** Percent-encoding loses nothing *)

Lemma string_forall_app p s t :
  string_forall p (s ++ t) = string_forall p s && string_forall p t.
Proof.
  induction s as [| c rest IH]; [reflexivity |].
  simpl. rewrite IH. apply andb_assoc.
Qed.

Lemma percent_encode_charset s :
  string_forall (fun a => unreserved a || Ascii.eqb a "%") (percent_encode s)
  = true.
Proof.
  unfold percent_encode. induction s as [| c rest IH]; [reflexivity |].
  cbn [join_map]. rewrite string_forall_app, IH, andb_true_r.
  destruct (unreserved c) eqn:Hc.
  - cbn [string_forall]. rewrite Hc. reflexivity.
  - apply pct_encoded_charset.
Qed.

Lemma percent_decode_plain c s :
  Ascii.eqb c "%" = false ->
  percent_decode (String c s) = String c (percent_decode s).
Proof.
  intros Hc. destruct s as [| a [| b rest]]; cbn [percent_decode];
    rewrite ?Hc; reflexivity.
Qed.

Lemma percent_decode_escape a b rest :
  percent_decode (String "%" (String a (String b rest)))
  = match hex_pair a b with
    | Some octet => String octet (percent_decode rest)
    | None => String "%" (percent_decode (String a (String b rest)))
    end.
Proof. reflexivity. Qed.

Lemma percent_decode_pct c s :
  percent_decode (pct_encoded c ++ s) = String c (percent_decode s).
Proof.
  change (pct_encoded c ++ s)
    with (String "%"
            (String (upper_hex_digit (N_of_ascii c / 16))
               (String (upper_hex_digit (N_of_ascii c mod 16)) s))).
  rewrite percent_decode_escape, hex_pair_of_pct. reflexivity.
Qed.

Lemma single_app c t : String c "" ++ t = String c t.
Proof. reflexivity. Qed.

Lemma percent_decode_encode s : percent_decode (percent_encode s) = s.
Proof.
  unfold percent_encode. induction s as [| c rest IH]; [reflexivity |].
  cbn [join_map]. destruct (unreserved c) eqn:Hc.
  - rewrite single_app, percent_decode_plain
      by (apply unreserved_not_percent, Hc).
    rewrite IH. reflexivity.
  - rewrite percent_decode_pct, IH. reflexivity.
Qed.

Lemma lower_str_bool b : lower (str_bool b) = if b then "true" else "false".
Proof. destruct b; reflexivity. Qed.

(** ** The headers of the two uploads *)

Example quote_of_a_path :
  quote "/documents/my file~1.pdf" "" = "%2Fdocuments%2Fmy%20file~1.pdf".
Proof. reflexivity. Qed.

Example quote_keeps_slash_when_safe : quote "/a b/c" "/" = "/a%20b/c".
Proof. reflexivity. Qed.

Example stream_upload_headers :
  map_to_list
    (sent_headers
       (sent (stream_upload times_out demo_client "/a b/c.txt" "bytes" false)))
  ≡ₚ [("File-Path", "%2Fa%20b%2Fc.txt"); ("As-Task", "false");
      ("Content-Type", "application/octet-stream");
      ("Authorization", "eyJhbGciOiJIUzI1NiJ9")].
Proof. vm_compute. solve_Permutation. Qed.

(** C9. For every target path and either value of the flag, [form_upload]
    and [stream_upload] both send the header [File-Path] with the path
    percent-encoded (every octet outside ALPHA, DIGIT, "-", ".", "_", "~"
    becomes "%" and two hexadecimal digits, "/" included, so the value is
    made of unreserved characters and "%" and decodes back to the path),
    and the header [As-Task] with the flag as "true" or "false". *)
Theorem uploads_send_encoded_path_and_task_flag
    tr client file_path content as_task :
  let form :=
    sent_headers (sent (form_upload tr client file_path content as_task)) in
  let stream :=
    sent_headers (sent (stream_upload tr client file_path content as_task)) in
  let flag := if as_task then "true" else "false" in
  form !! "File-Path" = Some (percent_encode file_path)
  /\ form !! "As-Task" = Some flag
  /\ stream !! "File-Path" = Some (percent_encode file_path)
  /\ stream !! "As-Task" = Some flag
  /\ string_forall (fun a => unreserved a || Ascii.eqb a "%")
       (percent_encode file_path) = true
  /\ percent_decode (percent_encode file_path) = file_path
  /\ percent_encode "/" = "%2F".
Proof.
  intros form stream flag. unfold form, stream, form_upload, stream_upload.
  rewrite !put_is_call, !call_headers. cbn [kw_headers].
  rewrite quote_is_percent_encode, lower_str_bool. fold flag.
  repeat split.
  - apply lookup_union_Some_l.
    rewrite lookup_insert_ne by discriminate. apply lookup_insert_eq.
  - apply lookup_union_Some_l. apply lookup_insert_eq.
  - apply lookup_union_Some_l.
    rewrite !lookup_insert_ne by discriminate. apply lookup_insert_eq.
  - apply lookup_union_Some_l.
    rewrite lookup_insert_ne by discriminate. apply lookup_insert_eq.
  - apply percent_encode_charset.
  - apply percent_decode_encode.
Qed.

(** * More of the transport core *)

(** ** The address of the server *)

Lemma last_char_cons a s :
  s <> "" -> last_char (String a s) = last_char s.
Proof. destruct s; [congruence | reflexivity]. Qed.

(** [rstrip] splits a text in what it keeps and a tail made of the
    characters to strip; what it keeps does not end with one of them. *)
Lemma rstrip_shape chars s :
  exists dropped,
    s = rstrip chars s ++ dropped
    /\ string_forall (fun c => contains c chars) dropped = true
    /\ (forall c, last_char (rstrip chars s) = Some c ->
                  contains c chars = false).
Proof.
  induction s as [| a rest (dropped & Hsplit & Hdropped & Hlast)].
  - exists "". repeat split. intros c Hc. discriminate Hc.
  - cbn [rstrip]. destruct (rstrip chars rest) as [| b kept] eqn:Hkept.
    + change ("" ++ dropped) with dropped in Hsplit. subst rest.
      destruct (contains a chars) eqn:Ha.
      * exists (String a dropped). split; [reflexivity | split].
        -- cbn [string_forall]. rewrite Ha. exact Hdropped.
        -- intros c Hc. discriminate Hc.
      * exists dropped. split; [reflexivity | split; [exact Hdropped |]].
        intros c Hc. cbn in Hc. injection Hc as <-. exact Ha.
    + exists dropped. split; [| split].
      * change (String a (String b kept) ++ dropped)
          with (String a (String b kept ++ dropped)).
        f_equal. exact Hsplit.
      * exact Hdropped.
      * intros c Hc. rewrite last_char_cons in Hc by discriminate.
        apply Hlast, Hc.
Qed.

Lemma rstrip_fixed chars s :
  (forall c, last_char s = Some c -> contains c chars = false) ->
  rstrip chars s = s.
Proof.
  induction s as [| a rest IH]; [reflexivity |]. intros Hlast.
  cbn [rstrip]. destruct rest as [| b rest'].
  - cbn [rstrip]. rewrite (Hlast a eq_refl). reflexivity.
  - rewrite IH; [reflexivity |].
    intros c Hc. apply Hlast. rewrite last_char_cons by discriminate.
    exact Hc.
Qed.

Lemma forall_slash_repeat dropped :
  string_forall (fun c => contains c "/") dropped = true ->
  dropped = repeat_char "/" (String.length dropped).
Proof.
  induction dropped as [| c rest IH]; [reflexivity |].
  cbn [string_forall String.length repeat_char]. intros H.
  apply andb_prop in H as [Hc Hrest]. rewrite <- IH by exact Hrest.
  cbn [contains] in Hc. rewrite orb_false_r in Hc.
  apply Ascii.eqb_eq in Hc. subst c. reflexivity.
Qed.

(** X1. [BaseClient.__init__] removes the slashes at the end of the
    address and nothing else: the address given is the one kept followed
    by slashes only, the one kept does not end with a slash, normalizing
    it again changes nothing, and every request goes to the address kept
    followed by the endpoint. *)
Theorem init_strips_trailing_slashes
    address timeout credential entry tr endpoint kwargs :
  let self := __init__ address timeout credential in
  (exists k, address = base_url self ++ repeat_char "/" k)
  /\ last_char (base_url self) <> Some "/"%char
  /\ base_url (__init__ (base_url self) timeout credential) = base_url self
  /\ sent_url (sent (call entry tr self endpoint kwargs))
     = base_url self ++ endpoint.
Proof.
  cbn zeta. cbn [__init__ base_url].
  destruct (rstrip_shape "/" address) as (dropped & Hsplit & Hdropped & Hlast).
  split; [| split; [| split]].
  - exists (String.length dropped).
    rewrite <- (forall_slash_repeat _ Hdropped). exact Hsplit.
  - intros Hc. apply Hlast in Hc. discriminate Hc.
  - apply rstrip_fixed, Hlast.
  - rewrite call_is_request. reflexivity.
Qed.

Example init_of_a_slashed_address :
  base_url (__init__ "http://host:5244///" 30 None) = "http://host:5244"
  /\ base_url (__init__ "///" 30 None) = ""
  /\ base_url (__init__ "http://host/a/" 30 None) = "http://host/a".
Proof. repeat split. Qed.

(** ** How the headers are merged *)

(** X2. When the caller gives headers of its own, each header of the
    request is the caller's where the caller names it and the core's where
    it does not; and the request has no header besides [Content-Type],
    [Authorization] and the caller's. *)
Theorem caller_headers_take_precedence
    entry tr self endpoint kwargs (other : gmap string string) (k : string) :
  kw_headers kwargs = Some other ->
  let headers := sent_headers (sent (call entry tr self endpoint kwargs)) in
  headers !! k
  = match other !! k with
    | Some v => Some v
    | None => _get_headers self !! k
    end
  /\ (is_Some (headers !! k) ->
      k = "Content-Type" \/ k = "Authorization" \/ is_Some (other !! k)).
Proof.
  intros Hother headers. unfold headers. rewrite call_headers, Hother.
  assert (Hlookup : (other ∪ _get_headers self) !! k
                    = match other !! k with
                      | Some v => Some v
                      | None => _get_headers self !! k
                      end).
  { destruct (other !! k) as [v |] eqn:Hk.
    - apply lookup_union_Some_l, Hk.
    - apply lookup_union_r, Hk. }
  split; [exact Hlookup |].
  rewrite Hlookup. destruct (other !! k) as [v |]; [eauto |].
  unfold _get_headers. intros [v Hv].
  destruct (truthy (token self)).
  - apply lookup_insert_Some in Hv as [[<- _] | [_ Hv]]; [auto |].
    apply lookup_insert_Some in Hv as [[<- _] | [_ Hv]]; [auto |].
    rewrite lookup_empty in Hv. discriminate Hv.
  - apply lookup_insert_Some in Hv as [[<- _] | [_ Hv]]; [auto |].
    rewrite lookup_empty in Hv. discriminate Hv.
Qed.

Lemma caller_headers_take_precedence_witness :
  sent_headers
    (sent (call ViaGet (always pong) demo_client "/ping"
             (mkKwargs (Some (<["Content-Type" := "text/plain"]> ∅))
                None None None None)))
    !! "Content-Type"
  = Some "text/plain".
Proof.
  pose proof (caller_headers_take_precedence ViaGet (always pong)
                demo_client "/ping"
                (mkKwargs (Some (<["Content-Type" := "text/plain"]> ∅))
                   None None None None)
                (<["Content-Type" := "text/plain"]> ∅) "Content-Type"
                eq_refl) as [Hlookup _].
  exact Hlookup.
Defined.

(** X3. Every request has a [Content-Type]: the caller's when the caller
    names one, [application/json] otherwise.  So [stream_upload] sends
    [application/octet-stream], and [form_upload], which names none, sends
    [application/json] along with its multipart file. *)
Theorem content_type_is_always_sent
    entry tr self endpoint kwargs file_path content as_task :
  sent_headers (sent (call entry tr self endpoint kwargs)) !! "Content-Type"
  = Some match kw_headers kwargs with
         | Some other => default "application/json" (other !! "Content-Type")
         | None => "application/json"
         end
  /\ sent_headers (sent (stream_upload tr self file_path content as_task))
       !! "Content-Type"
     = Some "application/octet-stream"
  /\ sent_headers (sent (form_upload tr self file_path content as_task))
       !! "Content-Type"
     = Some "application/json"
  /\ sent_files (sent (form_upload tr self file_path content as_task))
     = Some [("file", content)].
Proof.
  assert (Hcore : _get_headers self !! "Content-Type"
                  = Some "application/json").
  { unfold _get_headers. destruct (truthy (token self)).
    - rewrite lookup_insert_ne by discriminate. apply lookup_insert_eq.
    - apply lookup_insert_eq. }
  assert (Hany : forall entry endpoint kwargs,
            sent_headers (sent (call entry tr self endpoint kwargs))
              !! "Content-Type"
            = Some match kw_headers kwargs with
                   | Some other =>
                       default "application/json" (other !! "Content-Type")
                   | None => "application/json"
                   end).
  { intros entry' endpoint' kwargs'. rewrite call_headers.
    destruct (kw_headers kwargs') as [other |]; [| exact Hcore].
    destruct (other !! "Content-Type") as [v |] eqn:Hct.
    - apply lookup_union_Some_l, Hct.
    - rewrite lookup_union_r by exact Hct. exact Hcore. }
  split; [apply Hany |]. unfold stream_upload, form_upload.
  split; [| split].
  - rewrite put_is_call, Hany. cbn [kw_headers].
    rewrite lookup_insert_eq. reflexivity.
  - rewrite put_is_call, Hany. cbn [kw_headers].
    rewrite !lookup_insert_ne by discriminate. rewrite lookup_empty.
    reflexivity.
  - reflexivity.
Qed.

(** ** Which fault gives which message *)

(** X4. The three [except] clauses are tried in their order: a fault that
    is a [Timeout] is reported as a timeout even when it is a
    [ConnectionError] as well ([ConnectTimeout] is both); a
    [ConnectionError] that is no timeout as a failed connection; any other
    exception of [requests] as a network error. *)
Theorem fault_message_follows_clause_order
    entry tr self endpoint kwargs c msg :
  faults tr (call entry tr self endpoint kwargs) c msg ->
  let out := outcome (call entry tr self endpoint kwargs) in
  (is_Timeout c = true ->
   out = raise1 NetworkError ("请求超时: " ++ msg))
  /\ (is_Timeout c = false -> is_ConnectionError c = true ->
      out = raise1 NetworkError ("连接失败: " ++ msg))
  /\ (is_Timeout c = false -> is_ConnectionError c = false ->
      out = raise1 NetworkError ("网络错误: " ++ msg))
  /\ is_Timeout ConnectTimeout && is_ConnectionError ConnectTimeout = true.
Proof.
  intros Htr out. unfold out. rewrite (call_faulted _ _ _ _ _ _ _ Htr).
  unfold _request_except.
  repeat split; intros; repeat match goal with
  | H : _ = _ |- _ => rewrite H
  end; reflexivity.
Qed.

Lemma fault_message_follows_clause_order_witness :
  outcome (call ViaPost times_out demo_client "/api/fs/mkdir" no_kwargs)
  = raise1 NetworkError "请求超时: HTTPConnectionPool: connect timed out".
Proof.
  apply (fault_message_follows_clause_order ViaPost times_out demo_client
           "/api/fs/mkdir" no_kwargs ConnectTimeout
           "HTTPConnectionPool: connect timed out");
    reflexivity.
Defined.

(** ** The three ways an answered call ends *)



(** ** What every failure carries *)

(** X6. Whatever ends a call, a failure of the package carries a status
    code exactly when it carries a response, and exactly when it is no
    [NetworkError]; the status is then one of 400..599, the class is the
    one of that status, and the response is the one the transport gave. *)
Theorem failure_has_status_iff_not_network
    entry tr self endpoint kwargs f :
  outcome (call entry tr self endpoint kwargs) = Raise (ExnOpenList f) ->
  (kind f = NetworkError
   <-> failure_status_code f = None)
  /\ (failure_status_code f = None <-> failure_response f = None)
  /\ (forall s, failure_status_code f = Some s ->
        400 <= s <= 599
        /\ kind f = kind_of_status s
        /\ exists response,
             failure_response f = Some response
             /\ status_code response = s
             /\ answers tr (call entry tr self endpoint kwargs) response).
Proof.
  intros Hf.
  assert (Hk : forall s, kind_of_status s <> NetworkError).
  { intros s. unfold kind_of_status.
    repeat match goal with
    | |- context [if ?b then _ else _] => destruct b
    end; discriminate. }
  destruct (transport_cases tr (call entry tr self endpoint kwargs))
    as [(response & Htr) | [(c & msg & Htr) | (name & msg & Htr)]];
    [| | rewrite (call_crashed _ _ _ _ _ _ _ Htr) in Hf; discriminate Hf].
  - destruct (Z_lt_dec (status_code response) 400) as [Hlo | Hlo];
      [| destruct (Z_le_dec 600 (status_code response)) as [Hhi | Hhi]].
    1, 2: rewrite (call_status_pass _ _ _ _ _ _ Htr) in Hf by lia;
      destruct (body response);
      [discriminate Hf | | discriminate Hf];
      injection Hf as <-; cbn; repeat split; intros; congruence.
    rewrite (call_status_error _ _ _ _ _ _ Htr) in Hf by lia.
    injection Hf as <-. cbn. split; [| split].
    + split; [intros Hn; exfalso; apply (Hk _ Hn) | discriminate].
    + split; discriminate.
    + intros s [= <-]. split; [lia | split; [reflexivity |]].
      exists response. repeat split. exact Htr.
  - rewrite (call_faulted _ _ _ _ _ _ _ Htr) in Hf.
    destruct (@request_except_catches JsonValue c msg) as (p & _ & Heq).
    rewrite Heq in Hf. injection Hf as <-. cbn.
    repeat split; intros; congruence.
Qed.

Lemma failure_has_status_iff_not_network_witness :
  exists f,
    outcome (call ViaGet (always bad_gateway) demo_client "/api/me" no_kwargs)
    = Raise (ExnOpenList f)
    /\ (kind f = NetworkError <-> failure_status_code f = None).
Proof.
  eexists. split; [reflexivity |].
  apply (failure_has_status_iff_not_network ViaGet (always bad_gateway)
           demo_client "/api/me" no_kwargs).
  reflexivity.
Defined.

(** * More of the uploads and of the logins *)

Lemma string_length_app s t :
  String.length (s ++ t) = (String.length s + String.length t)%nat.
Proof.
  induction s as [| c rest IH]; [reflexivity |].
  simpl. rewrite IH. reflexivity.
Qed.

Lemma pct_encoded_length c : String.length (pct_encoded c) = 3%nat.
Proof. reflexivity. Qed.

Lemma percent_encode_length s :
  String.length (percent_encode s)
  = (String.length s + 2 * count_chars (fun c => negb (unreserved c)) s)%nat.
Proof.
  unfold percent_encode. induction s as [| c rest IH]; [reflexivity |].
  cbn [join_map count_chars String.length]. rewrite string_length_app, IH.
  destruct (unreserved c); cbn [negb]; [cbn [String.length] |
    rewrite pct_encoded_length]; lia.
Qed.

Lemma count_chars_le p s : (count_chars p s <= String.length s)%nat.
Proof.
  induction s as [| c rest IH]; [reflexivity |].
  cbn [count_chars String.length]. destruct (p c); lia.
Qed.

Lemma count_none_forall p s :
  count_chars (fun c => negb (p c)) s = 0%nat <-> string_forall p s = true.
Proof.
  induction s as [| c rest IH]; [split; reflexivity |].
  cbn [count_chars string_forall]. destruct (p c); cbn [negb andb].
  - exact IH.
  - split; [intros H; lia | discriminate].
Qed.

Lemma percent_encode_unreserved s :
  string_forall unreserved s = true -> percent_encode s = s.
Proof.
  unfold percent_encode. induction s as [| c rest IH]; [reflexivity |].
  cbn [string_forall join_map]. intros H. apply andb_prop in H as [Hc Hrest].
  rewrite Hc, IH by exact Hrest. reflexivity.
Qed.

(** The headers both uploads give to the client *)
Lemma upload_headers tr self file_path content as_task (k : string) :
  k = "File-Path" \/ k = "As-Task" \/ k = "Authorization" ->
  let own : gmap string string :=
    <["As-Task" := lower (str_bool as_task)]>
      (<["File-Path" := quote file_path ""]> ∅) in
  sent_headers (sent (form_upload tr self file_path content as_task)) !! k
  = (own ∪ _get_headers self) !! k
  /\ sent_headers (sent (stream_upload tr self file_path content as_task)) !! k
     = (own ∪ _get_headers self) !! k.
Proof.
  intros Hk own. unfold form_upload, stream_upload. split.
  - rewrite put_is_call, call_headers. reflexivity.
  - rewrite put_is_call, call_headers. cbn [kw_headers].
    rewrite !lookup_union. f_equal.
    apply lookup_insert_ne. destruct Hk as [-> | [-> | ->]]; discriminate.
Qed.

Lemma upload_file_path tr self file_path content as_task :
  sent_headers (sent (form_upload tr self file_path content as_task))
    !! "File-Path" = Some (quote file_path "")
  /\ sent_headers (sent (stream_upload tr self file_path content as_task))
       !! "File-Path" = Some (quote file_path "").
Proof.
  destruct (upload_headers tr self file_path content as_task "File-Path")
    as [-> ->]; [auto |].
  assert ((<["As-Task" := lower (str_bool as_task)]>
             (<["File-Path" := quote file_path ""]> ∅) ∪ _get_headers self)
            !! "File-Path" = Some (quote file_path "")) as ->.
  { apply lookup_union_Some_l.
    rewrite lookup_insert_ne by discriminate. apply lookup_insert_eq. }
  split; reflexivity.
Qed.

(** X7. With a credential set that is not empty, both uploads send it in
    [Authorization] beside their own headers; both are a PUT, to
    [/api/fs/form] and [/api/fs/put]; [form_upload] hands the content over
    as the multipart file [file] and no body, [stream_upload] as the body
    and no file. *)
Theorem uploads_carry_credential_and_content
    tr self file_path content as_task credential :
  credential <> "" ->
  let client := set_token self credential in
  let form := sent (form_upload tr client file_path content as_task) in
  let stream := sent (stream_upload tr client file_path content as_task) in
  sent_headers form !! "Authorization" = Some credential
  /\ sent_headers stream !! "Authorization" = Some credential
  /\ sent_method form = "PUT" /\ sent_method stream = "PUT"
  /\ sent_url form = base_url self ++ "/api/fs/form"
  /\ sent_url stream = base_url self ++ "/api/fs/put"
  /\ sent_files form = Some [("file", content)] /\ sent_data form = None
  /\ sent_data stream = Some content /\ sent_files stream = None
  /\ sent_json form = None /\ sent_json stream = None.
Proof.
  intros Hne client form stream. unfold form, stream.
  destruct (upload_headers tr client file_path content as_task
              "Authorization") as [-> ->]; [auto |].
  rewrite lookup_union_r
    by (rewrite !lookup_insert_ne by discriminate; apply lookup_empty).
  unfold client. rewrite (get_headers_with_token _ _ Hne).
  repeat split.
Qed.

Lemma uploads_carry_credential_and_content_witness :
  sent_headers
    (sent (form_upload times_out (set_token demo_client "s3cr3t")
             "/docs/a b.txt" "bytes" true))
    !! "Authorization"
  = Some "s3cr3t".
Proof.
  apply (uploads_carry_credential_and_content times_out demo_client
           "/docs/a b.txt" "bytes" true "s3cr3t").
  discriminate.
Defined.

(** X8. The [File-Path] value of an upload has as many characters as the
    path has octets in UTF-8, plus two for each of these octets outside
    the unreserved set, so at most three times the number of octets (a
    path of one CJK character, three octets, gives nine characters); and
    it is the path itself exactly when the path has unreserved characters
    only. *)
Theorem file_path_header_length tr self file_path content as_task :
  exists value,
    sent_headers (sent (form_upload tr self file_path content as_task))
      !! "File-Path" = Some value
    /\ sent_headers (sent (stream_upload tr self file_path content as_task))
         !! "File-Path" = Some value
    /\ String.length value
       = (utf8_length file_path
          + 2 * count_chars (fun c => negb (unreserved c)) (encode file_path))%nat
    /\ (String.length value <= 3 * utf8_length file_path)%nat
    /\ (value = file_path <-> string_forall unreserved file_path = true).
Proof.
  exists (quote file_path ""). unfold utf8_length, encode.
  destruct (upload_file_path tr self file_path content as_task) as [Hf Hs].
  split; [exact Hf | split; [exact Hs |]].
  rewrite quote_is_percent_encode.
  pose proof (percent_encode_length file_path) as Hlen.
  pose proof (count_chars_le (fun c => negb (unreserved c)) file_path) as Hle.
  split; [exact Hlen | split; [lia |]]. split.
  - intros Heq. rewrite Heq in Hlen. apply count_none_forall. lia.
  - apply percent_encode_unreserved.
Qed.

Example file_path_of_one_cjk_character :
  utf8_length "文" = 3%nat /\ quote "文" "" = "%E6%96%87".
Proof. split; reflexivity. Qed.

(** X9. Two different paths never give the same [File-Path] value, in
    either upload. *)
Theorem file_path_header_is_injective
    tr self path1 path2 content as_task :
  path1 <> path2 ->
  sent_headers (sent (form_upload tr self path1 content as_task))
    !! "File-Path"
  <> sent_headers (sent (form_upload tr self path2 content as_task))
       !! "File-Path"
  /\ sent_headers (sent (stream_upload tr self path1 content as_task))
       !! "File-Path"
     <> sent_headers (sent (stream_upload tr self path2 content as_task))
          !! "File-Path".
Proof.
  intros Hne.
  destruct (upload_file_path tr self path1 content as_task) as [-> ->].
  destruct (upload_file_path tr self path2 content as_task) as [-> ->].
  rewrite !quote_is_percent_encode.
  assert (Hinj : Some (percent_encode path1) <> Some (percent_encode path2)).
  { intros [= Heq]. apply Hne.
    rewrite <- (percent_decode_encode path1), <- (percent_decode_encode path2).
    rewrite Heq. reflexivity. }
  split; exact Hinj.
Qed.

Lemma file_path_header_is_injective_witness :
  sent_headers (sent (form_upload times_out demo_client "/a b" "x" true))
    !! "File-Path"
  <> sent_headers (sent (form_upload times_out demo_client "/a%20b" "x" true))
       !! "File-Path".
Proof.
  apply (file_path_header_is_injective times_out demo_client "/a b" "/a%20b"
           "x" true).
  discriminate.
Defined.

Example quote_of_an_escaped_path : quote "/a%20b" "" = "%2Fa%2520b".
Proof. reflexivity. Qed.

(** ** The two logins *)

Lemma login_fields tr client username password otp_code :
  sent_json (sent (login tr client username password otp_code))
  = Some (JObj
      ([("username", JStr username); ("password", JStr password)]
       ++ (if truthy otp_code
           then [("otp_code", JStr (default "" otp_code))]
           else []))%list).
Proof.
  unfold login, post, _request, with_json. cbn [sent sent_json kw_json].
  destruct (truthy otp_code); reflexivity.
Qed.

(** X10. Both logins send the one-time code exactly when it is given and
    not empty: with no code or with the empty text the body of either has
    the two fields [username] and [password] and no other, with a code it
    has [otp_code] as the third.  They send the same user name; [login]
    sends the password as it is, to [/api/auth/login], and [login_hash]
    posts to [/api/auth/login/hash]. *)
Theorem logins_send_otp_code_when_not_empty
    tr client username password otp_code :
  let plain := login tr client username password otp_code in
  let hashed := login_hash tr client username password otp_code in
  let code :=
    match otp_code with
    | Some (String c rest) => Some (JStr (String c rest))
    | _ => None
    end in
  let keys :=
    (["username"; "password"]
     ++ match code with Some _ => ["otp_code"] | None => [] end)%list in
  sent_field plain "otp_code" = code
  /\ sent_field hashed "otp_code" = code
  /\ sent_field plain "password" = Some (JStr password)
  /\ sent_field plain "username" = Some (JStr username)
  /\ sent_field hashed "username" = Some (JStr username)
  /\ sent_url (sent plain) = base_url client ++ "/api/auth/login"
  /\ sent_url (sent hashed) = base_url client ++ "/api/auth/login/hash"
  /\ (exists fields, sent_json (sent plain) = Some (JObj fields)
                     /\ dict_keys fields = keys)
  /\ (exists fields, sent_json (sent hashed) = Some (JObj fields)
                     /\ dict_keys fields = keys).
Proof.
  intros plain hashed code keys. unfold sent_field, plain, hashed.
  rewrite login_fields, login_hash_fields.
  generalize (SHA256.hexdigest
                (password ++ "-https://github.com/alist-org/alist")).
  intros h. unfold keys, code.
  destruct otp_code as [[| c rest] |];
    (split; [reflexivity |]); (split; [reflexivity |]);
    (split; [reflexivity |]); (split; [reflexivity |]);
    (split; [reflexivity |]); (split; [reflexivity |]);
    (split; [reflexivity |]);
    (split; eexists; split; reflexivity).
Qed.

(** X11. [login_hash] does not send the password itself in the [password]
    field: the field differs from every password that is not itself 64
    lower-case hexadecimal digits. *)
Theorem login_hash_does_not_send_plaintext
    tr client username password otp_code :
  is_sha256_hex password = false ->
  sent_field (login_hash tr client username password otp_code) "password"
  <> Some (JStr password).
Proof.
  intros Hnot. unfold sent_field. rewrite login_hash_fields.
  pose proof (hexdigest_shape
                (password ++ "-https://github.com/alist-org/alist"))
    as [Hlen Hhex].
  revert Hlen Hhex.
  generalize (SHA256.hexdigest
                (password ++ "-https://github.com/alist-org/alist")).
  intros h Hlen Hhex Heq. cbn in Heq. injection Heq as ->.
  unfold is_sha256_hex in Hnot. rewrite Hlen, Hhex in Hnot.
  discriminate Hnot.
Qed.

Lemma login_hash_does_not_send_plaintext_witness :
  sent_field (login_hash times_out demo_client "admin" "password123" None)
    "password"
  <> Some (JStr "password123")
  /\ sent_field
       (login_hash times_out demo_client "admin"
          "éééééééééééééééééééééééééééééééé" None)
       "password"
     <> Some (JStr "éééééééééééééééééééééééééééééééé").
Proof.
  split.
  - apply (login_hash_does_not_send_plaintext times_out demo_client "admin"
             "password123" None).
    reflexivity.
  - apply (login_hash_does_not_send_plaintext times_out demo_client "admin"
             "éééééééééééééééééééééééééééééééé" None).
    reflexivity.
Defined.

Example sixty_four_octets_that_are_no_digest :
  String.length "éééééééééééééééééééééééééééééééé" = 64%nat
  /\ is_sha256_hex "éééééééééééééééééééééééééééééééé" = false.
Proof. split; reflexivity. Qed.

(** * The admin groups *)

(** ** Dictionaries filled step by step *)

Lemma dict_lookup_set fields key v k :
  dict_lookup (dict_set fields key v) k
  = if String.eqb key k then Some v else dict_lookup fields k.
Proof.
  induction fields as [| [k0 x] rest IH]; [reflexivity |].
  cbn [dict_set]. destruct (String.eqb_spec k0 key) as [-> | Hne].
  - cbn [dict_lookup]. destruct (String.eqb key k); reflexivity.
  - cbn [dict_lookup]. rewrite IH.
    destruct (String.eqb_spec k0 k) as [-> | Hne']; [| reflexivity].
    destruct (String.eqb_spec key k) as [-> | _]; [congruence | reflexivity].
Qed.

Lemma dict_lookup_given {A : Type} (to_json : A -> JsonValue)
    fields key (arg : option A) k :
  dict_lookup (set_if_given to_json fields key arg) k
  = if String.eqb key k
    then match arg with
         | Some x => Some (to_json x)
         | None => dict_lookup fields k
         end
    else dict_lookup fields k.
Proof.
  destruct arg as [x |]; cbn [set_if_given].
  - rewrite dict_lookup_set. destruct (String.eqb key k); reflexivity.
  - destruct (String.eqb key k); reflexivity.
Qed.

Ltac name_the_key k :=
  repeat match goal with
  | |- context [String.eqb ?key k] =>
      destruct (String.eqb_spec key k) as [<- | ?]
  end.

(** ** The paged lists *)

(** X12. [MetaAPI.list] and [StorageAPI.list] send [page] and [per_page]
    as decimal texts in the query, and leave out the one that is 0: with
    the defaults (page 1, no paging) the query is [page=1] alone, and page
    0 cannot be asked for. *)
Theorem paged_lists_leave_out_zero tr client page per_page :
  let meta := MetaAPI.list tr client page per_page in
  let storage := StorageAPI.list tr client page per_page in
  let sent_page := if page =? 0 then None else Some (JStr (str_int page)) in
  let sent_per_page :=
    if per_page =? 0 then None else Some (JStr (str_int per_page)) in
  sent_param meta "page" = sent_page
  /\ sent_param meta "per_page" = sent_per_page
  /\ sent_param storage "page" = sent_page
  /\ sent_param storage "per_page" = sent_per_page
  /\ sent_params (sent (MetaAPI.list tr client 1 0)) = Some [("page", JStr "1")]
  /\ sent_params (sent (MetaAPI.list tr client 0 0)) = Some []
  /\ sent_method (sent meta) = "GET" /\ sent_method (sent storage) = "GET"
  /\ sent_url (sent meta) = base_url client ++ "/api/admin/meta/list"
  /\ sent_url (sent storage) = base_url client ++ "/api/admin/storage/list".
Proof.
  cbn zeta. unfold sent_param, MetaAPI.list, StorageAPI.list, get, _request.
  cbn [sent sent_params sent_method sent_url with_params kw_params].
  unfold page_params, truthy_int.
  generalize (str_int page) (str_int per_page). intros p pp.
  destruct (page =? 0), (per_page =? 0); repeat split.
Qed.

(** X13. [SettingAPI.list] sends [group] and [groups] whenever they are
    given, the group 0 and the empty text included, and no query
    parameter when neither is. *)
Theorem setting_list_sends_what_is_given tr client group groups :
  let ex := SettingAPI.list tr client group groups in
  sent_param ex "group" = option_map (fun g => JStr (str_int g)) group
  /\ sent_param ex "groups" = option_map JStr groups
  /\ sent_param (SettingAPI.list tr client (Some 0) (Some "")) "group"
     = Some (JStr "0")
  /\ sent_param (SettingAPI.list tr client (Some 0) (Some "")) "groups"
     = Some (JStr "")
  /\ sent_params (sent (SettingAPI.list tr client None None)) = Some []
  /\ sent_url (sent ex) = base_url client ++ "/api/admin/setting/list".
Proof.
  cbn zeta.
  unfold sent_param, SettingAPI.list, return_get, get, _request.
  cbn [sent sent_params sent_url with_params kw_params].
  rewrite !dict_lookup_given. cbn [String.eqb Ascii.eqb Bool.eqb dict_lookup].
  destruct group, groups; repeat split.
Qed.

(** ** Updates with optional fields *)

(** X14. [UserAPI.update] always sends [id] and [username]; each of
    [password], [base_path], [role], [permission], [disabled] and [sso_id]
    is in the body exactly when its argument is given, with the value
    given (an empty password is sent as the empty text); and the body has
    no other field. *)
Theorem user_update_sends_given_fields
    tr client user_id username password base_path role permission disabled
    sso_id :
  let ex :=
    UserAPI.update tr client user_id username password base_path role
      permission disabled sso_id in
  sent_field ex "id" = Some (JNum user_id)
  /\ sent_field ex "username" = Some (JStr username)
  /\ sent_field ex "password" = option_map JStr password
  /\ sent_field ex "base_path" = option_map JStr base_path
  /\ sent_field ex "role" = option_map JNum role
  /\ sent_field ex "permission" = option_map JNum permission
  /\ sent_field ex "disabled" = option_map JBool disabled
  /\ sent_field ex "sso_id" = option_map JStr sso_id
  /\ (forall k, sent_field ex k <> None ->
        In k ["id"; "username"; "password"; "base_path"; "role";
              "permission"; "disabled"; "sso_id"])
  /\ sent_url (sent ex) = base_url client ++ "/api/admin/user/update"
  /\ sent_method (sent ex) = "POST".
Proof.
  cbn zeta. unfold sent_field, UserAPI.update, post, _request, with_json.
  cbn [sent sent_json sent_url sent_method kw_json].
  repeat match goal with
  | |- _ /\ _ => split
  end; try reflexivity.
  1-8: rewrite !dict_lookup_given;
    cbn [String.eqb Ascii.eqb Bool.eqb dict_lookup];
    destruct password, base_path, role, permission, disabled, sso_id;
    reflexivity.
  intros k. rewrite !dict_lookup_given. cbn [dict_lookup].
  name_the_key k; cbn [In]; intros Hk; try tauto.
Qed.

(** X15. [StorageAPI.update] always sends the ten fields it has no default
    for; [order], [cache_expiration], [remark], [webdav_policy] and
    [down_proxy_url] are in the body exactly when given, so a field left
    out is left to the server. *)
Theorem storage_update_sends_given_fields
    tr client storage_id mount_path driver addition order_by order_direction
    extract_folder web_proxy enable_sign status order cache_expiration remark
    webdav_policy down_proxy_url :
  let ex :=
    StorageAPI.update tr client storage_id mount_path driver addition
      order_by order_direction extract_folder web_proxy enable_sign status
      order cache_expiration remark webdav_policy down_proxy_url in
  sent_field ex "order" = option_map JNum order
  /\ sent_field ex "cache_expiration" = option_map JNum cache_expiration
  /\ sent_field ex "remark" = option_map JStr remark
  /\ sent_field ex "webdav_policy" = option_map JStr webdav_policy
  /\ sent_field ex "down_proxy_url" = option_map JStr down_proxy_url
  /\ sent_field ex "id" = Some (JNum storage_id)
  /\ sent_field ex "mount_path" = Some (JStr mount_path)
  /\ sent_field ex "driver" = Some (JStr driver)
  /\ sent_field ex "addition" = Some (JStr addition)
  /\ sent_field ex "order_by" = Some (JStr order_by)
  /\ sent_field ex "order_direction" = Some (JStr order_direction)
  /\ sent_field ex "extract_folder" = Some (JStr extract_folder)
  /\ sent_field ex "web_proxy" = Some (JBool web_proxy)
  /\ sent_field ex "enable_sign" = Some (JBool enable_sign)
  /\ sent_field ex "status" = Some (JStr status)
  /\ (forall k, sent_field ex k <> None ->
        In k ["id"; "mount_path"; "driver"; "addition"; "order_by";
              "order_direction"; "extract_folder"; "web_proxy";
              "enable_sign"; "status"; "order"; "cache_expiration";
              "remark"; "webdav_policy"; "down_proxy_url"]).
Proof.
  cbn zeta. unfold sent_field, StorageAPI.update, post, _request, with_json.
  cbn [sent sent_json kw_json].
  repeat match goal with
  | |- _ /\ _ => split
  end.
  1-15: rewrite !dict_lookup_given;
    cbn [String.eqb Ascii.eqb Bool.eqb dict_lookup];
    destruct order, cache_expiration, remark, webdav_policy, down_proxy_url;
    reflexivity.
  intros k. rewrite !dict_lookup_given. cbn [dict_lookup].
  name_the_key k; cbn [In]; intros Hk; try tauto.
Qed.

(** * Wrappers that take [data] out of the reply *)

Lemma return_get_outcome ex key default :
  outcome (return_get ex key default)
  = match outcome ex with
    | Return (JObj fields) => Return (dict_get fields key default)
    | Return other => Raise (no_get_attribute other)
    | Raise e => Raise e
    end.
Proof.
  unfold return_get. cbn [outcome]. destruct (outcome ex) as [v | e];
    [| reflexivity].
  destruct v; reflexivity.
Qed.

Lemma get_always_returns response client endpoint kwargs v :
  outside_error_range (status_code response) ->
  body response = JsonBody v ->
  outcome (get (always response) client endpoint kwargs) = Return v.
Proof.
  intros Hs Hbody.
  change (get (always response) client endpoint kwargs)
    with (call ViaGet (always response) client endpoint kwargs).
  rewrite (call_status_pass ViaGet (always response) client endpoint kwargs
             response eq_refl Hs).
  rewrite Hbody. reflexivity.
Qed.

(** X16. When the server answers with a JSON object, [DriverAPI.names],
    [TaskAPI.get_done], [TaskAPI.get_undone] and [SettingAPI.list] return
    its [data] field, and an empty list when it has none;
    [TaskAPI.get_info] returns an empty object then, and [SettingAPI.get]
    returns [None], as it does for a [data] that is null. *)
Theorem data_wrappers_return_data_or_default
    response client fields tid key group groups :
  outside_error_range (status_code response) ->
  body response = JsonBody (JObj fields) ->
  let tr := always response in
  let data_or default :=
    Return match dict_lookup fields "data" with
           | Some data => data
           | None => default
           end in
  outcome (DriverAPI.names tr client) = data_or (JArr [])
  /\ outcome (TaskAPI.get_done tr client) = data_or (JArr [])
  /\ outcome (TaskAPI.get_undone tr client) = data_or (JArr [])
  /\ outcome (SettingAPI.list tr client group groups) = data_or (JArr [])
  /\ outcome (TaskAPI.get_info tr client tid) = data_or (JObj [])
  /\ outcome (SettingAPI.get tr client key) = data_or JNull.
Proof.
  intros Hs Hbody tr data_or. unfold data_or, tr.
  unfold DriverAPI.names, TaskAPI.get_done, TaskAPI.get_undone,
    SettingAPI.list, TaskAPI.get_info, SettingAPI.get.
  rewrite !return_get_outcome.
  rewrite !(get_always_returns response client _ _ _ Hs Hbody).
  rewrite !dict_get_lookup. repeat split.
Qed.

Lemma data_wrappers_return_data_or_default_witness :
  outcome (DriverAPI.names (always (data_reply (JArr [JStr "Local"])))
             demo_client)
  = Return (JArr [JStr "Local"])
  /\ outcome (SettingAPI.get (always (data_reply JNull)) demo_client "k")
     = Return JNull.
Proof.
  split.
  - apply (data_wrappers_return_data_or_default
             (data_reply (JArr [JStr "Local"])) demo_client
             [("code", JNum 200); ("message", JStr "success");
              ("data", JArr [JStr "Local"])] "" "" None None);
      [left; simpl; lia | reflexivity].
  - apply (data_wrappers_return_data_or_default
             (data_reply JNull) demo_client
             [("code", JNum 200); ("message", JStr "success");
              ("data", JNull)] "" "k" None None);
      [left; simpl; lia | reflexivity].
Defined.

(** X17. When the server answers with JSON that is no object (a bare list,
    a text, a number, null), the core returns the value, and each of
    [DriverAPI.names], [TaskAPI.get_done], [TaskAPI.get_undone],
    [TaskAPI.get_info], [SettingAPI.get] and [SettingAPI.list] raises
    [AttributeError] on it: an exception that is none of the package's.
    Whatever the core raises passes through each of them unchanged. *)
Theorem data_wrappers_raise_on_non_object
    response client v tid key group groups :
  outside_error_range (status_code response) ->
  body response = JsonBody v ->
  is_object v = false ->
  let tr := always response in
  (outcome (DriverAPI.names tr client) = Raise (no_get_attribute v)
   /\ outcome (TaskAPI.get_done tr client) = Raise (no_get_attribute v)
   /\ outcome (TaskAPI.get_undone tr client) = Raise (no_get_attribute v)
   /\ outcome (TaskAPI.get_info tr client tid) = Raise (no_get_attribute v)
   /\ outcome (SettingAPI.get tr client key) = Raise (no_get_attribute v)
   /\ outcome (SettingAPI.list tr client group groups)
      = Raise (no_get_attribute v))
  /\ is_raw_exception (Raise (no_get_attribute v)) = true
  /\ is_classified_failure (Raise (no_get_attribute v)) = false
  /\ outcome (get tr client "/api/admin/driver/names" no_kwargs) = Return v
  /\ (forall tr' e,
        (outcome (get tr' client "/api/admin/driver/names" no_kwargs)
         = Raise e ->
         outcome (DriverAPI.names tr' client) = Raise e)
        /\ (outcome (get tr' client "/api/admin/task/upload/done" no_kwargs)
            = Raise e ->
            outcome (TaskAPI.get_done tr' client) = Raise e)
        /\ (outcome (get tr' client "/api/admin/task/upload/undone" no_kwargs)
            = Raise e ->
            outcome (TaskAPI.get_undone tr' client) = Raise e)
        /\ (outcome (get tr' client "/api/admin/task/upload/info"
                       (with_params [("tid", JStr tid)]))
            = Raise e ->
            outcome (TaskAPI.get_info tr' client tid) = Raise e)
        /\ (outcome (get tr' client "/api/admin/setting/get"
                       (with_params [("key", JStr key)]))
            = Raise e ->
            outcome (SettingAPI.get tr' client key) = Raise e)
        /\ (outcome (get tr' client "/api/admin/setting/list"
                       (with_params
                          (set_if_given JStr
                             (set_if_given (fun g => JStr (str_int g)) []
                                "group" group)
                             "groups" groups)))
            = Raise e ->
            outcome (SettingAPI.list tr' client group groups) = Raise e)).
Proof.
  intros Hs Hbody Hv tr. unfold tr.
  split; [| split; [| split; [| split]]].
  - unfold DriverAPI.names, TaskAPI.get_done, TaskAPI.get_undone,
      TaskAPI.get_info, SettingAPI.get, SettingAPI.list.
    rewrite !return_get_outcome.
    rewrite !(get_always_returns response client _ _ _ Hs Hbody).
    destruct v; try discriminate Hv; repeat split.
  - reflexivity.
  - reflexivity.
  - apply (get_always_returns response client _ _ _ Hs Hbody).
  - intros tr' e.
    unfold DriverAPI.names, TaskAPI.get_done, TaskAPI.get_undone,
      TaskAPI.get_info, SettingAPI.get, SettingAPI.list.
    rewrite !return_get_outcome.
    repeat split; intros He; rewrite He; reflexivity.
Qed.

Lemma data_wrappers_raise_on_non_object_witness :
  outcome (DriverAPI.names (always bare_list_reply) demo_client)
  = Raise (ExnBuiltin "AttributeError"
             "'list' object has no attribute 'get'").
Proof.
  assert (Hs : outside_error_range (status_code bare_list_reply))
    by (left; simpl; lia).
  pose proof (data_wrappers_raise_on_non_object bare_list_reply demo_client
                (JArr [JStr "Local"; JStr "S3"]) "" "" None None Hs eq_refl
                eq_refl)
    as [[Hnames _] _].
  exact Hnames.
Defined.

(** * The facade *)

(** X18. [OpenListClient] makes one [BaseClient] and gives it to all its
    API groups.  A new facade has no credential and its groups send no
    [Authorization]; after [set_token] the property [token] reads the
    credential back, every group sees the same client with that
    credential (address and timeout as they were), and sends it unless it
    is empty; no other object of the store is touched. *)
Theorem facade_shares_one_client store address timeout credential :
  let made := OpenListClient.__init__ store address timeout in
  let before := fst made in
  let self := snd made in
  let after := OpenListClient.set_token before self credential in
  OpenListClient.token before self = None
  /\ OpenListClient.token after self = Some credential
  /\ (forall group, In group (facade_groups self) ->
        before !! group = Some (mkBaseClient (rstrip "/" address) timeout None)
        /\ after !! group
           = Some (mkBaseClient (rstrip "/" address) timeout (Some credential)))
  /\ (forall group client, In group (facade_groups self) ->
        before !! group = Some client ->
        _get_headers client !! "Authorization" = None)
  /\ (forall group client, In group (facade_groups self) ->
        after !! group = Some client ->
        _get_headers client !! "Authorization"
        = if String.eqb credential "" then None else Some credential)
  /\ (forall other client, store !! other = Some client ->
        after !! other = Some client).
Proof.
  intros made before self after.
  set (a := fresh (dom store)).
  set (c0 := mkBaseClient (rstrip "/" address) timeout None).
  assert (Hbefore : before !! a = Some c0) by apply lookup_insert_eq.
  assert (Hafter : after !! a
                   = Some (mkBaseClient (rstrip "/" address) timeout
                             (Some credential))).
  { unfold after, OpenListClient.set_token. cbn [OpenListClient._client self
      made OpenListClient.__init__ snd].
    fold a. rewrite lookup_alter_eq. fold before. rewrite Hbefore.
    reflexivity. }
  assert (Hgroups : forall group, In group (facade_groups self) -> group = a).
  { intros group Hin. unfold facade_groups in Hin.
    repeat (destruct Hin as [<- | Hin]; [reflexivity |]). destruct Hin. }
  split; [| split; [| split; [| split; [| split]]]].
  - unfold OpenListClient.token.
    change (OpenListClient._client self) with a. rewrite Hbefore. reflexivity.
  - unfold OpenListClient.token.
    change (OpenListClient._client self) with a. rewrite Hafter. reflexivity.
  - intros group Hin. rewrite (Hgroups _ Hin). split; assumption.
  - intros group client Hin Hc. rewrite (Hgroups _ Hin), Hbefore in Hc.
    injection Hc as <-. unfold _get_headers. cbn [token c0 truthy].
    rewrite lookup_insert_ne by discriminate. apply lookup_empty.
  - intros group client Hin Hc. rewrite (Hgroups _ Hin), Hafter in Hc.
    injection Hc as <-. unfold _get_headers. cbn [token].
    destruct credential as [| ch rest]; cbn [truthy String.eqb default].
    + rewrite lookup_insert_ne by discriminate. apply lookup_empty.
    + apply lookup_insert_eq.
  - intros other client Hother.
    assert (Hne : a <> other).
    { intros <-. apply (is_fresh (dom store)). fold a.
      apply (elem_of_dom_2 _ _ _ Hother). }
    unfold after, OpenListClient.set_token.
    change (OpenListClient._client self) with a.
    rewrite lookup_alter_ne by exact Hne.
    unfold before, made, OpenListClient.__init__. cbn [fst]. fold a.
    rewrite lookup_insert_ne by exact Hne. exact Hother.
Qed.

Lemma facade_shares_one_client_witness :
  let made := OpenListClient.__init__ ∅ "http://localhost:5244/" 30 in
  let after := OpenListClient.set_token (fst made) (snd made) "s3cr3t" in
  OpenListClient.token after (snd made) = Some "s3cr3t"
  /\ after !! OpenListClient.fs (snd made)
     = Some (mkBaseClient "http://localhost:5244" 30 (Some "s3cr3t")).
Proof.
  pose proof (facade_shares_one_client ∅ "http://localhost:5244/" 30 "s3cr3t")
    as (_ & Htoken & Hgroups & _).
  split; [exact Htoken |].
  apply Hgroups. cbn. tauto.
Defined.
